(** * Ride dispatch: fare calculator, ride state machine and acceptance

    A shallow embedding of the ride-sharing backend
    ([backend/models/Ride.js], [backend/models/Driver.js],
    [backend/routes/rides.js], and the availability route of
    [backend/routes/drivers.js]) and the properties of its dispatch core.

    Modelling conventions.
    - A JavaScript [Number] is a rational ([Q]), compared with [==] ([Qeq]).
      The amounts of the fare calculator are computed exactly.  The
      verification code, the trip distance and the estimated duration, whose
      integer part hangs on the last bit of a product or a quotient, are
      computed as the code computes them: every multiplication, addition and
      division is rounded to the nearest binary64 number ([Double.round]).
      [Math.round], [Math.floor], [Math.ceil] and [Math.max] are exact on
      binary64 numbers.
    - A Mongoose [ObjectId] is a natural number; a collection is a finite map
      from [_id] to the other fields of the document.
    - String-valued enumerations ([status], [approvalStatus], ...) stay
      strings, as in the schema.
    - [new Date()] reads a clock value passed in with the request. *)

From Stdlib Require Import ZArith QArith Qround Qabs Qpower Lia String Ascii List Bool.
From Stdlib Require Import DecimalString.
From stdpp Require Import base option gmap strings sorting.

Local Open Scope string_scope.
Local Open Scope Q_scope.

(** ** Binary64 numbers *)

Module Double.

(** [2^e] for an integer exponent. *)
Definition pow2 (e : Z) : Q := 2 ^ e.

(** [floor (log2 x)] for a positive [x]: the difference of the bit lengths of
    numerator and denominator, or one less. *)
Definition ilog2 (x : Q) : Z :=
  let l := (Z.log2 (Qnum x) - Z.log2 (Zpos (Qden x)))%Z in
  if Qle_bool (pow2 l) x then l else (l - 1)%Z.

(** The exponent of the last place of the binary64 numbers around [x]:
    53 significant bits, and [2^-1074] throughout the subnormal range. *)
Definition cexp (x : Q) : Z := Z.max (ilog2 (Qabs x) - 52) (-1074).

(** The nearest integer, ties to the even one. *)
Definition rne (t : Q) : Z :=
  let f := Qfloor t in
  match Qcompare (t - inject_Z f) (1 # 2) with
  | Lt => f
  | Gt => (f + 1)%Z
  | Eq => if Z.even f then f else (f + 1)%Z
  end.

(** Rounding to the nearest binary64 number, ties to even (IEEE 754
    round-to-nearest-even, the rounding of every JavaScript arithmetic
    operation).  Overflow to [Infinity] is not modelled: the magnitudes rounded
    here stay far below [2^1024]. *)
Definition round (x : Q) : Q :=
  if Qeq_bool x 0 then 0
  else inject_Z (rne (x / pow2 (cexp x))) * pow2 (cexp x).

(** [x] is a binary64 number. *)
Definition representable (x : Q) : Prop := round x == x.

(** The binary64 number that the literal [0.3333333333333333] denotes. *)
Definition third : Q := 6004799503160661 # 18014398509481984.

End Double.

(** ** JavaScript numbers *)

Module JS.

(** [a * b], [a + b] and [a / b] on numbers: the exact result, rounded. *)
Definition mul (a b : Q) : Q := Double.round (a * b).
Definition add (a b : Q) : Q := Double.round (a + b).
Definition div (a b : Q) : Q := Double.round (a / b).

(** [Math.round(x)]: nearest integer, ties towards +infinity. *)
Definition round (x : Q) : Q := inject_Z (Qfloor (x + (1 # 2))).

(** [Math.floor(x)]. *)
Definition floor (x : Q) : Z := Qfloor x.

(** [Math.ceil(x)]. *)
Definition ceil (x : Q) : Z := Qceiling x.

(** [Math.max(a, b)]. *)
Definition max (a b : Q) : Q := if Qle_bool a b then b else a.

(** [n.toString()] for an integral number. *)
Definition toString (n : Z) : string := NilZero.string_of_int (Z.to_int n).

End JS.

(** ** Fare configuration ([routes/rides.js], [getFareConfig]) *)

(** [vehicleType] is validated against ['bike', 'auto', 'car', 'suv'] both by
    the request schema and by the Ride schema. *)
Inductive VehicleType := Bike | Auto | Car | Suv.

Global Instance VehicleType_eq_dec : EqDecision VehicleType.
Proof. solve_decision. Defined.

Record FareConfig := {
  baseRate : Q;
  perKmRate : Q;
  perMinuteRate : Q;
  minimumFare : Q
}.

Definition getFareConfig (vehicleType : VehicleType) : FareConfig :=
  match vehicleType with
  | Bike => {| baseRate := 20; perKmRate := 8; perMinuteRate := 1; minimumFare := 25 |}
  | Auto => {| baseRate := 30; perKmRate := 12; perMinuteRate := 3 # 2; minimumFare := 40 |}
  | Car => {| baseRate := 50; perKmRate := 15; perMinuteRate := 2; minimumFare := 60 |}
  | Suv => {| baseRate := 70; perKmRate := 20; perMinuteRate := 5 # 2; minimumFare := 80 |}
  end.

(** [generateOTP]: [Math.floor(1000 + Math.random() * 9000).toString()];
    [rnd] is the value returned by [Math.random()], a binary64 number. *)
Definition generateOTP (rnd : Q) : string :=
  JS.toString (JS.floor (JS.add 1000 (JS.mul rnd 9000))).

(** ** The fare sub-document and the surge sub-document ([models/Ride.js]) *)

Record Fare := {
  baseFare : Q;
  distanceFare : Q;
  timeFare : Q;
  surgeFare : Q;
  surgeMultiplier : Q;
  platformFee : Q;
  taxes : Q;
  tip : Q;
  discount : Q;
  couponDiscount : Q;
  totalFare : Q;
  driverEarning : option Q;
  platformCommission : option Q
}.

Record Surge := {
  isActive : bool;
  multiplier : Q
}.

(** Schema defaults of the surge sub-document. *)
Definition defaultSurge : Surge := {| isActive := false; multiplier := 1 |}.

(** The fare sub-document the request route creates:
    [{ baseFare: 0, distanceFare: 0, totalFare: 0 }] plus schema defaults. *)
Definition initialFare : Fare :=
  {| baseFare := 0; distanceFare := 0; timeFare := 0; surgeFare := 0;
     surgeMultiplier := 1; platformFee := 0; taxes := 0; tip := 0;
     discount := 0; couponDiscount := 0; totalFare := 0;
     driverEarning := None; platformCommission := None |}.

(** [calculateFare] on the fields it reads: [this.distance],
    [this.estimatedDuration], [this.surge] and [this.fare].  The result is the
    updated [this.fare]; the method returns its [totalFare]. *)
Definition calculateFare (distance estimatedDuration : Q) (surge : Surge)
    (fare : Fare) (baseFareConfig : FareConfig) : Fare :=
  let baseFare' := baseRate baseFareConfig in
  let distanceFare' := distance * perKmRate baseFareConfig in
  let timeFare' := estimatedDuration * perMinuteRate baseFareConfig in
  let subtotal0 := baseFare' + distanceFare' + timeFare' in
  (* Apply surge pricing *)
  let surgeFare' :=
    if isActive surge then subtotal0 * (multiplier surge - 1) else surgeFare fare in
  let subtotal :=
    if isActive surge then subtotal0 + surgeFare' else subtotal0 in
  (* Apply platform fee and taxes *)
  let platformFee' := JS.round (subtotal * (5 # 100)) in
  let taxes' := JS.round (subtotal * (18 # 100)) in
  (* Calculate total before discounts *)
  let total0 := subtotal + platformFee' + taxes' in
  (* Apply discounts *)
  let total1 := total0 - (discount fare + couponDiscount fare) in
  (* Ensure minimum fare *)
  let total := JS.max total1 (minimumFare baseFareConfig) in
  let totalFare' := JS.round total in
  let driverEarning' := JS.round (totalFare' * (8 # 10)) in
  {| baseFare := baseFare';
     distanceFare := distanceFare';
     timeFare := timeFare';
     surgeFare := surgeFare';
     surgeMultiplier := surgeMultiplier fare;
     platformFee := platformFee';
     taxes := taxes';
     tip := tip fare;
     discount := discount fare;
     couponDiscount := couponDiscount fare;
     totalFare := totalFare';
     driverEarning := Some driverEarning';
     platformCommission := Some (totalFare' - driverEarning') |}.

(** The subtotal before surge, as [calculateFare] computes it. *)
Definition baseSubtotal (f : Fare) : Q := baseFare f + distanceFare f + timeFare f.

(** ** Documents *)

Definition ObjectId := nat.
Definition Date := nat.

(** A GeoJSON position, [[longitude, latitude]]. *)
Definition Coords := (Q * Q)%type.

(** An element of [ride.driverLocation]. *)
Record LocationSample := {
  ls_coordinates : Coords;
  ls_heading : option Q;
  ls_speed : option Q;
  ls_timestamp : Date
}.

(** The ride statuses of the schema enumeration. *)
Definition ride_statuses : list string :=
  [ "requested"; "searching"; "driver_assigned"; "driver_arrived";
    "pickup_confirmed"; "in_progress"; "completed"; "cancelled";
    "payment_pending" ].

Module Ride.

(** The fields of a Ride document that the dispatch routes read or write.
    Passive fields (the generated [rideId], addresses, waypoints, ratings,
    route, passenger details, special requests, notifications, metadata,
    payment fields) are left out. *)
Record t := {
  passenger : ObjectId;
  driver : option ObjectId;
  vehicleType : VehicleType;
  pickup : Coords;
  destination : Coords;
  distance : Q;
  estimatedDuration : Q;
  fare : Fare;
  status : string;
  otp : string;
  assignedAt : option Date;
  pickedUpAt : option Date;
  droppedAt : option Date;
  completedAt : option Date;
  cancelledAt : option Date;
  cancellationReason : option string;
  cancelledBy : option string;
  promo : option string;
  surge : Surge;
  driverLocation : list LocationSample
}.

Definition set_driver (v : option ObjectId) (r : t) : t :=
  {| passenger := passenger r; driver := v;
     vehicleType := vehicleType r; pickup := pickup r; destination := destination r;
     distance := distance r; estimatedDuration := estimatedDuration r;
     fare := fare r; status := status r; otp := otp r;
     assignedAt := assignedAt r; pickedUpAt := pickedUpAt r;
     droppedAt := droppedAt r; completedAt := completedAt r;
     cancelledAt := cancelledAt r; cancellationReason := cancellationReason r;
     cancelledBy := cancelledBy r; promo := promo r; surge := surge r; driverLocation := driverLocation r |}.

Definition set_fare (v : Fare) (r : t) : t :=
  {| passenger := passenger r; driver := driver r;
     vehicleType := vehicleType r; pickup := pickup r; destination := destination r;
     distance := distance r; estimatedDuration := estimatedDuration r;
     fare := v; status := status r; otp := otp r;
     assignedAt := assignedAt r; pickedUpAt := pickedUpAt r;
     droppedAt := droppedAt r; completedAt := completedAt r;
     cancelledAt := cancelledAt r; cancellationReason := cancellationReason r;
     cancelledBy := cancelledBy r; promo := promo r; surge := surge r; driverLocation := driverLocation r |}.

Definition set_status (v : string) (r : t) : t :=
  {| passenger := passenger r; driver := driver r;
     vehicleType := vehicleType r; pickup := pickup r; destination := destination r;
     distance := distance r; estimatedDuration := estimatedDuration r;
     fare := fare r; status := v; otp := otp r;
     assignedAt := assignedAt r; pickedUpAt := pickedUpAt r;
     droppedAt := droppedAt r; completedAt := completedAt r;
     cancelledAt := cancelledAt r; cancellationReason := cancellationReason r;
     cancelledBy := cancelledBy r; promo := promo r; surge := surge r; driverLocation := driverLocation r |}.

Definition set_assignedAt (v : option Date) (r : t) : t :=
  {| passenger := passenger r; driver := driver r;
     vehicleType := vehicleType r; pickup := pickup r; destination := destination r;
     distance := distance r; estimatedDuration := estimatedDuration r;
     fare := fare r; status := status r; otp := otp r;
     assignedAt := v; pickedUpAt := pickedUpAt r;
     droppedAt := droppedAt r; completedAt := completedAt r;
     cancelledAt := cancelledAt r; cancellationReason := cancellationReason r;
     cancelledBy := cancelledBy r; promo := promo r; surge := surge r; driverLocation := driverLocation r |}.

Definition set_pickedUpAt (v : option Date) (r : t) : t :=
  {| passenger := passenger r; driver := driver r;
     vehicleType := vehicleType r; pickup := pickup r; destination := destination r;
     distance := distance r; estimatedDuration := estimatedDuration r;
     fare := fare r; status := status r; otp := otp r;
     assignedAt := assignedAt r; pickedUpAt := v;
     droppedAt := droppedAt r; completedAt := completedAt r;
     cancelledAt := cancelledAt r; cancellationReason := cancellationReason r;
     cancelledBy := cancelledBy r; promo := promo r; surge := surge r; driverLocation := driverLocation r |}.

Definition set_droppedAt (v : option Date) (r : t) : t :=
  {| passenger := passenger r; driver := driver r;
     vehicleType := vehicleType r; pickup := pickup r; destination := destination r;
     distance := distance r; estimatedDuration := estimatedDuration r;
     fare := fare r; status := status r; otp := otp r;
     assignedAt := assignedAt r; pickedUpAt := pickedUpAt r;
     droppedAt := v; completedAt := completedAt r;
     cancelledAt := cancelledAt r; cancellationReason := cancellationReason r;
     cancelledBy := cancelledBy r; promo := promo r; surge := surge r; driverLocation := driverLocation r |}.

Definition set_completedAt (v : option Date) (r : t) : t :=
  {| passenger := passenger r; driver := driver r;
     vehicleType := vehicleType r; pickup := pickup r; destination := destination r;
     distance := distance r; estimatedDuration := estimatedDuration r;
     fare := fare r; status := status r; otp := otp r;
     assignedAt := assignedAt r; pickedUpAt := pickedUpAt r;
     droppedAt := droppedAt r; completedAt := v;
     cancelledAt := cancelledAt r; cancellationReason := cancellationReason r;
     cancelledBy := cancelledBy r; promo := promo r; surge := surge r; driverLocation := driverLocation r |}.

Definition set_cancelledAt (v : option Date) (r : t) : t :=
  {| passenger := passenger r; driver := driver r;
     vehicleType := vehicleType r; pickup := pickup r; destination := destination r;
     distance := distance r; estimatedDuration := estimatedDuration r;
     fare := fare r; status := status r; otp := otp r;
     assignedAt := assignedAt r; pickedUpAt := pickedUpAt r;
     droppedAt := droppedAt r; completedAt := completedAt r;
     cancelledAt := v; cancellationReason := cancellationReason r;
     cancelledBy := cancelledBy r; promo := promo r; surge := surge r; driverLocation := driverLocation r |}.

Definition set_cancellationReason (v : option string) (r : t) : t :=
  {| passenger := passenger r; driver := driver r;
     vehicleType := vehicleType r; pickup := pickup r; destination := destination r;
     distance := distance r; estimatedDuration := estimatedDuration r;
     fare := fare r; status := status r; otp := otp r;
     assignedAt := assignedAt r; pickedUpAt := pickedUpAt r;
     droppedAt := droppedAt r; completedAt := completedAt r;
     cancelledAt := cancelledAt r; cancellationReason := v;
     cancelledBy := cancelledBy r; promo := promo r; surge := surge r; driverLocation := driverLocation r |}.

Definition set_cancelledBy (v : option string) (r : t) : t :=
  {| passenger := passenger r; driver := driver r;
     vehicleType := vehicleType r; pickup := pickup r; destination := destination r;
     distance := distance r; estimatedDuration := estimatedDuration r;
     fare := fare r; status := status r; otp := otp r;
     assignedAt := assignedAt r; pickedUpAt := pickedUpAt r;
     droppedAt := droppedAt r; completedAt := completedAt r;
     cancelledAt := cancelledAt r; cancellationReason := cancellationReason r;
     cancelledBy := v; promo := promo r; surge := surge r;
     driverLocation := driverLocation r |}.

Definition set_promo (v : option string) (r : t) : t :=
  {| passenger := passenger r; driver := driver r;
     vehicleType := vehicleType r; pickup := pickup r; destination := destination r;
     distance := distance r; estimatedDuration := estimatedDuration r;
     fare := fare r; status := status r; otp := otp r;
     assignedAt := assignedAt r; pickedUpAt := pickedUpAt r;
     droppedAt := droppedAt r; completedAt := completedAt r;
     cancelledAt := cancelledAt r; cancellationReason := cancellationReason r;
     cancelledBy := cancelledBy r; promo := v; surge := surge r; driverLocation := driverLocation r |}.

Definition set_driverLocation (v : list LocationSample) (r : t) : t :=
  {| passenger := passenger r; driver := driver r;
     vehicleType := vehicleType r; pickup := pickup r; destination := destination r;
     distance := distance r; estimatedDuration := estimatedDuration r;
     fare := fare r; status := status r; otp := otp r;
     assignedAt := assignedAt r; pickedUpAt := pickedUpAt r;
     droppedAt := droppedAt r; completedAt := completedAt r;
     cancelledAt := cancelledAt r; cancellationReason := cancellationReason r;
     cancelledBy := cancelledBy r; promo := promo r; surge := surge r; driverLocation := v |}.

(** [ride.calculateFare(baseFareConfig)] as a document update. *)
Definition calculateFare (baseFareConfig : FareConfig) (r : t) : t :=
  set_fare (calculateFare (distance r) (estimatedDuration r) (surge r) (fare r)
              baseFareConfig) r.

(** The in-memory effect of [updateStatus(newStatus)]: the status and the
    timestamp chosen by the [switch]; the method then saves the document. *)
Definition updateStatus (newStatus : string) (now : Date) (r : t) : t :=
  let r := set_status newStatus r in
  if String.eqb newStatus "driver_assigned" then set_assignedAt (Some now) r
  else if String.eqb newStatus "pickup_confirmed" then set_pickedUpAt (Some now) r
  else if String.eqb newStatus "completed" then
    set_droppedAt (Some now) (set_completedAt (Some now) r)
  else if String.eqb newStatus "cancelled" then set_cancelledAt (Some now) r
  else r.

(** [array.slice(-n)]: the last [n] elements. *)
Definition slice_last {A} (n : nat) (l : list A) : list A :=
  skipn (length l - n) l.

(** The in-memory effect of [addDriverLocation]: push, then keep the last 50. *)
Definition addDriverLocation (coordinates : Coords) (heading speed : option Q)
    (now : Date) (r : t) : t :=
  let pushed := (driverLocation r ++
    [ {| ls_coordinates := coordinates; ls_heading := heading;
         ls_speed := speed; ls_timestamp := now |} ])%list in
  set_driverLocation
    (if Nat.ltb 50 (length pushed) then slice_last 50 pushed else pushed) r.

End Ride.

Module Driver.

Record Earnings := {
  today : Q;
  thisWeek : Q;
  thisMonth : Q;
  total : Q
}.

Record Stats := {
  totalRides : Z;
  totalDistance : Q;
  cancelledRides : Z;
  rating : Q;
  totalRatings : Z
}.

(** The fields of a Driver document that the dispatch routes read or write
    (licence, bank, documents, preferences and [lastActiveAt] are left out). *)
Record t := {
  userId : ObjectId;
  backgroundCheckStatus : string;
  isAvailable : bool;
  isOnline : bool;
  currentLocation : option Coords;
  vehicle_type : VehicleType;
  earnings : Earnings;
  stats : Stats;
  approvalStatus : string
}.

Definition set_isAvailable (v : bool) (d : t) : t :=
  {| userId := userId d;
     backgroundCheckStatus := backgroundCheckStatus d;
     isAvailable := v; isOnline := isOnline d;
     currentLocation := currentLocation d; vehicle_type := vehicle_type d;
     earnings := earnings d; stats := stats d;
     approvalStatus := approvalStatus d |}.

Definition set_isOnline (v : bool) (d : t) : t :=
  {| userId := userId d;
     backgroundCheckStatus := backgroundCheckStatus d;
     isAvailable := isAvailable d; isOnline := v;
     currentLocation := currentLocation d; vehicle_type := vehicle_type d;
     earnings := earnings d; stats := stats d;
     approvalStatus := approvalStatus d |}.

Definition set_currentLocation (v : option Coords) (d : t) : t :=
  {| userId := userId d;
     backgroundCheckStatus := backgroundCheckStatus d;
     isAvailable := isAvailable d; isOnline := isOnline d;
     currentLocation := v; vehicle_type := vehicle_type d;
     earnings := earnings d; stats := stats d;
     approvalStatus := approvalStatus d |}.

Definition set_earnings (v : Earnings) (d : t) : t :=
  {| userId := userId d;
     backgroundCheckStatus := backgroundCheckStatus d;
     isAvailable := isAvailable d; isOnline := isOnline d;
     currentLocation := currentLocation d; vehicle_type := vehicle_type d;
     earnings := v; stats := stats d;
     approvalStatus := approvalStatus d |}.

Definition set_stats (v : Stats) (d : t) : t :=
  {| userId := userId d;
     backgroundCheckStatus := backgroundCheckStatus d;
     isAvailable := isAvailable d; isOnline := isOnline d;
     currentLocation := currentLocation d; vehicle_type := vehicle_type d;
     earnings := earnings d; stats := v;
     approvalStatus := approvalStatus d |}.

(** The in-memory effect of [updateEarnings(amount)]. *)
Definition updateEarnings (amount : Q) (d : t) : t :=
  set_earnings
    {| today := today (earnings d) + amount;
       thisWeek := thisWeek (earnings d) + amount;
       thisMonth := thisMonth (earnings d) + amount;
       total := total (earnings d) + amount |} d.

(** [isAvailableForRides]. *)
Definition isAvailableForRides (d : t) : bool :=
  isAvailable d && isOnline d
  && String.eqb (approvalStatus d) "approved"
  && String.eqb (backgroundCheckStatus d) "approved".

(** The counters the [completed] branch of the status route updates on the
    ride's driver: [isAvailable = true], [stats.totalRides += 1],
    [stats.totalDistance += ride.distance]. *)
Definition completeRide (rideDistance : Q) (d : t) : t :=
  set_stats
    {| totalRides := (totalRides (stats d) + 1)%Z;
       totalDistance := totalDistance (stats d) + rideDistance;
       cancelledRides := cancelledRides (stats d);
       rating := rating (stats d);
       totalRatings := totalRatings (stats d) |}
    (set_isAvailable true d).

(** What the cancel route does to the ride's driver: [isAvailable = true],
    [stats.cancelledRides += 1]. *)
Definition cancelRide (d : t) : t :=
  set_stats
    {| totalRides := totalRides (stats d);
       totalDistance := totalDistance (stats d);
       cancelledRides := (cancelledRides (stats d) + 1)%Z;
       rating := rating (stats d);
       totalRatings := totalRatings (stats d) |}
    (set_isAvailable true d).

End Driver.

Module User.

(** The fields of a User document that the dispatch routes read or write. *)
Record t := {
  userType : string;
  totalRides : Z
}.

(** [passenger.totalRides += 1]. *)
Definition countRide (u : t) : t :=
  {| userType := userType u; totalRides := (totalRides u + 1)%Z |}.

End User.

(** ** The database, the socket server and the route monad *)

(** One [io.to(room).emit(event, payload)] call, or [io.emit(event, payload)]
    when [room] is [None]; of the payload only the ride identifier is kept. *)
Record Emit := {
  room : option ObjectId;
  event : string;
  about : ObjectId
}.

(** The three collections and the events sent so far. *)
Record World := {
  rides : gmap ObjectId Ride.t;
  drivers : gmap ObjectId Driver.t;
  users : gmap ObjectId User.t;
  outbox : list Emit
}.

(** [res.status(code).json(...)]: the HTTP status and the [error] or [message]
    text of the body. *)
Record Response := {
  code : nat;
  text : string
}.

(** What a request sees of its surroundings: whether the socket server is
    registered on the app ([req.app.get('io')]), the clock, the value of
    [Math.random()], the identifier given to a new document, and the two
    distance computations that live outside the repository:
    [geolib.getDistance] (metres) and the distance MongoDB's [$near] compares
    with [$maxDistance] (metres). *)
Record Env := {
  io : bool;
  now : Date;
  random : Q;
  newObjectId : ObjectId;
  getDistance : Coords → Coords → Z;
  nearDistance : Coords → Coords → Q
}.

(** A route handler either goes on, has sent its response ([return
    res.status(..).json(..)]), or has thrown; writes made before a response or
    an exception stay in the database. *)
Inductive Outcome (A : Type) : Type :=
| Next (a : A)
| Respond (r : Response)
| Thrown.
Arguments Next {A} a.
Arguments Respond {A} r.
Arguments Thrown {A}.

Definition Route (A : Type) : Type := World → Outcome A * World.

Global Instance Route_ret : MRet Route := λ A a w, (Next a, w).

Global Instance Route_bind : MBind Route := λ A B k m w,
  match m w with
  | (Next a, w') => k a w'
  | (Respond r, w') => (Respond r, w')
  | (Thrown, w') => (Thrown, w')
  end.

Notation "m ;; k" := (mbind (λ _, k) m)
  (at level 100, k at level 200, right associativity) : stdpp_scope.

Definition respond {A} (c : nat) (t : string) : Route A :=
  λ w, (Respond {| code := c; text := t |}, w).

Definition throw {A} : Route A := λ w, (Thrown, w).

Definition skip : Route unit := mret tt.

(** The [try { ... } catch (error) { res.status(500).json({ error }) }] around
    every handler body. *)
Definition handle (failure : string) (body : Route Response) (w : World)
    : Response * World :=
  match body w with
  | (Next r, w') => (r, w')
  | (Respond r, w') => (r, w')
  | (Thrown, w') => ({| code := 500; text := failure |}, w')
  end.

Definition emit (to : option ObjectId) (ev : string) (rideId : ObjectId) : Route unit :=
  λ w, (Next tt,
        {| rides := rides w; drivers := drivers w; users := users w;
           outbox := (outbox w ++ [ {| room := to; event := ev; about := rideId |} ])%list |}).

Definition with_rides (f : gmap ObjectId Ride.t → gmap ObjectId Ride.t) (w : World) : World :=
  {| rides := f (rides w); drivers := drivers w; users := users w; outbox := outbox w |}.

Definition with_drivers (f : gmap ObjectId Driver.t → gmap ObjectId Driver.t) (w : World) : World :=
  {| rides := rides w; drivers := f (drivers w); users := users w; outbox := outbox w |}.

Definition with_users (f : gmap ObjectId User.t → gmap ObjectId User.t) (w : World) : World :=
  {| rides := rides w; drivers := drivers w; users := f (users w); outbox := outbox w |}.

Module Rides.

(** [Ride.findById(id)]. *)
Definition findById (id : ObjectId) : Route (option Ride.t) :=
  λ w, (Next (rides w !! id), w).

(** [Ride.findById(id).populate('passenger', ..)]: the ride and the user
    document its [passenger] refers to ([null] when there is none). *)
Definition findByIdPopulated (id : ObjectId) : Route (option (Ride.t * option User.t)) :=
  λ w, (Next ((λ r, (r, users w !! Ride.passenger r)) <$> rides w !! id), w).

(** The insertion of a new document into the collection. *)
Definition insert (id : ObjectId) (r : Ride.t) : Route unit :=
  λ w, (Next tt, with_rides (base.insert id r) w).

(** The first [ride.save()] of a document built by [new Ride(..)].  Mongoose
    validates the document before it runs the schema's [pre('save')] hooks.
    [rideId] is a required path of the schema, and the hook that generates
    it is a [pre('save')] hook: a document built without a [rideId] is
    rejected by the validation (the promise rejects, nothing is written); one
    that has a [rideId] is inserted. *)
Definition create (id : ObjectId) (rideId : option string) (r : Ride.t) : Route unit :=
  match rideId with
  | None => throw
  | Some _ => insert id r
  end.

(** [ride.save()] after the in-memory changes [f]: the changed paths are
    written to the stored document. *)
Definition save (id : ObjectId) (f : Ride.t → Ride.t) : Route unit :=
  λ w, (Next tt, with_rides (alter f id) w).

End Rides.

Module Drivers.

(** [Driver.findById(id)]; [ride.driver] may be [null]. *)
Definition findById (id : option ObjectId) : Route (option Driver.t) :=
  λ w, (Next (id ≫= λ i, drivers w !! i), w).

(** [Driver.findOne({ userId })]: the [_id] and the fields of the first
    driver document of that user. *)
Definition findOne (uid : ObjectId) : Route (option (ObjectId * Driver.t)) :=
  λ w, (Next (List.find (λ kd, Nat.eqb (Driver.userId (snd kd)) uid)
                (map_to_list (drivers w))), w).

Definition save (id : ObjectId) (f : Driver.t → Driver.t) : Route unit :=
  λ w, (Next tt, with_drivers (alter f id) w).

(** The filter of the request route's [Driver.find]: vehicle type, the two
    flags, the two approvals, and a current location within [maxDistance]
    metres of [center]. *)
Definition matches (env : Env) (vehicleType : VehicleType) (center : Coords)
    (maxDistance : Q) (d : Driver.t) : bool :=
  bool_decide (Driver.vehicle_type d = vehicleType)
  && Driver.isAvailable d
  && Driver.isOnline d
  && String.eqb (Driver.approvalStatus d) "approved"
  && String.eqb (Driver.backgroundCheckStatus d) "approved"
  && match Driver.currentLocation d with
     | Some c => Qle_bool (nearDistance env c center) maxDistance
     | None => false
     end.

Definition distanceFrom (env : Env) (center : Coords) (d : Driver.t) : Q :=
  match Driver.currentLocation d with
  | Some c => nearDistance env c center
  | None => 0
  end.

Definition nearer (env : Env) (center : Coords) (a b : Driver.t) : Prop :=
  Is_true (Qle_bool (distanceFrom env center a) (distanceFrom env center b)).

Global Instance nearer_dec env center a b : Decision (nearer env center a b).
Proof. unfold nearer. apply _. Defined.

(** [$near] returns the matching documents nearest first. *)
Definition nearestFirst (env : Env) (center : Coords) (l : list Driver.t) : list Driver.t :=
  merge_sort (nearer env center) l.

(** [Driver.find({ .., currentLocation: { $near: .. } }).populate('userId', ..)]:
    each driver comes with the user document its [userId] refers to.  The
    query is evaluated by MongoDB, outside the repository; [matches] and
    [nearestFirst] read the query document of the route by the documented
    meaning of its operators, with the distance measure left to [Env]. *)
Definition findNear (env : Env) (vehicleType : VehicleType) (center : Coords)
    (maxDistance : Q) : Route (list (Driver.t * option User.t)) :=
  λ w, (Next ((λ d, (d, users w !! Driver.userId d)) <$>
                nearestFirst env center
                  (List.filter (matches env vehicleType center maxDistance)
                     (snd <$> map_to_list (drivers w)))), w).

End Drivers.

Module Users.

Definition findById (id : ObjectId) : Route (option User.t) :=
  λ w, (Next (users w !! id), w).

Definition save (id : ObjectId) (f : User.t → User.t) : Route unit :=
  λ w, (Next tt, with_users (alter f id) w).

End Users.

(** ** [POST /request] *)

(** A request body that has passed [rideRequestSchema], with the passenger
    that [authenticateToken] and [requirePassenger] put in [req.user]. *)
Record RideRequest := {
  rq_user : ObjectId;
  rq_pickup : Coords;
  rq_destination : Coords;
  rq_vehicleType : VehicleType;
  rq_promoCode : option string
}.

(** [calculateDistance]: [geolib.getDistance(..) / 1000], in kilometres. *)
Definition calculateDistance (env : Env) (pickup destination : Coords) : Q :=
  JS.div (inject_Z (getDistance env pickup destination)) 1000.

(** [calculateEstimatedDuration]:
    [Math.ceil((distance / averageSpeed) * 60)], minutes at 25 km/h. *)
Definition calculateEstimatedDuration (distance : Q) : Q :=
  let averageSpeed := 25 in
  inject_Z (JS.ceil (JS.mul (JS.div distance averageSpeed) 60)).

(** The search radius of the request route, in metres. *)
Definition maxDistance : Q := 5000.

(** The [rideId] of the document built in the request route: the constructor
    call passes none. *)
Definition newRideId : option string := None.

(** [new Ride({ .. })] in the request route, with the schema defaults. *)
Definition newRide (req : RideRequest) (distance estimatedDuration : Q)
    (otp : string) : Ride.t :=
  {| Ride.passenger := rq_user req;
     Ride.driver := None;
     Ride.vehicleType := rq_vehicleType req;
     Ride.pickup := rq_pickup req;
     Ride.destination := rq_destination req;
     Ride.distance := distance;
     Ride.estimatedDuration := estimatedDuration;
     Ride.fare := initialFare;
     Ride.status := "requested";
     Ride.otp := otp;
     Ride.assignedAt := None;
     Ride.pickedUpAt := None;
     Ride.droppedAt := None;
     Ride.completedAt := None;
     Ride.cancelledAt := None;
     Ride.cancellationReason := None;
     Ride.cancelledBy := None;
     Ride.promo := None;
     Ride.surge := defaultSurge;
     Ride.driverLocation := [] |}.

(** [availableDrivers.forEach(driver => io.to(driver.userId._id.toString())
    .emit('rideRequest', ..))]; [driver.userId] is the populated user. *)
Fixpoint offerTo (rideId : ObjectId) (availableDrivers : list (Driver.t * option User.t))
    : Route unit :=
  match availableDrivers with
  | [] => skip
  | (d, Some _) :: rest =>
      emit (Some (Driver.userId d)) "rideRequest" rideId;; offerTo rideId rest
  | (_, None) :: _ => throw
  end.

(** The route from "Find nearby drivers" on, for the ride saved under
    [rideId]. *)
Definition findDriversAndOffer (env : Env) (req : RideRequest) (rideId : ObjectId)
    : Route Response :=
  (* Find nearby drivers *)
  availableDrivers ← Drivers.findNear env (rq_vehicleType req) (rq_pickup req) maxDistance;
  if Nat.eqb (length availableDrivers) 0 then
    Rides.save rideId
      (λ r, Ride.set_cancellationReason (Some "No drivers available")
              (Ride.set_status "cancelled" r));;
    respond 400 "No drivers available in your area"
  else
    (* Update ride status *)
    Rides.save rideId (Ride.set_status "searching");;
    (* Emit ride request to nearby drivers via socket.io *)
    (if io env then offerTo rideId availableDrivers else skip);;
    respond 201 "Ride requested successfully".

Definition requestRideBody (env : Env) (req : RideRequest) : Route Response :=
  (* Calculate distance and duration *)
  let distance := calculateDistance env (rq_pickup req) (rq_destination req) in
  let estimatedDuration := calculateEstimatedDuration distance in
  (* Check minimum distance *)
  if negb (Qle_bool (1 # 2) distance) then respond 400 "Minimum distance is 0.5 km"
  else
    let otp := generateOTP (random env) in
    let rideId := newObjectId env in
    let ride := newRide req distance estimatedDuration otp in
    (* Calculate fare *)
    let fareConfig := getFareConfig (rq_vehicleType req) in
    let ride := Ride.calculateFare fareConfig ride in
    (* Apply promo code if provided *)
    let ride :=
      match rq_promoCode req with
      | Some c => Ride.set_promo (Some c) ride
      | None => ride
      end in
    Rides.create rideId newRideId ride;;
    findDriversAndOffer env req rideId.

(** [findDriversAndOffer] as the end of a handler: with the route's [catch]. *)
Definition findDriversAndOfferHandled (env : Env) (req : RideRequest) (rideId : ObjectId)
    : World → Response * World :=
  handle "Failed to request ride" (findDriversAndOffer env req rideId).

Definition requestRide (env : Env) (req : RideRequest) : World → Response * World :=
  handle "Failed to request ride" (requestRideBody env req).

(** ** [PUT /:rideId/status] *)

(** The [location] object of the request body. *)
Record LocationUpdate := {
  lu_coordinates : Coords;
  lu_heading : option Q;
  lu_speed : option Q
}.

Record StatusRequest := {
  st_user : ObjectId;
  st_rideId : ObjectId;
  st_status : string;
  st_location : option LocationUpdate
}.

Definition validTransitions : list (string * list string) :=
  [ ("searching", ["cancelled"]);
    ("driver_assigned", ["driver_arrived"; "cancelled"]);
    ("driver_arrived", ["pickup_confirmed"; "cancelled"]);
    ("pickup_confirmed", ["in_progress"]);
    ("in_progress", ["completed"]);
    ("completed", []);
    ("cancelled", []) ].

(** [object[key]] on an object literal; [None] is [undefined]. *)
Fixpoint property {A} (key : string) (object : list (string * A)) : option A :=
  match object with
  | [] => None
  | (k, v) :: rest => if String.eqb k key then Some v else property key rest
  end.

(** [array.includes(x)] on an array of strings. *)
Definition includes (array : list string) (x : string) : bool :=
  existsb (String.eqb x) array.

(** [ride.passenger.toString() === req.user._id.toString()]. *)
Definition isPassengerOf (ride : Ride.t) (user : ObjectId) : bool :=
  Nat.eqb (Ride.passenger ride) user.

(** [ride.driver && ride.driver.toString() === req.user._id.toString()]. *)
Definition isDriverOf (ride : Ride.t) (user : ObjectId) : bool :=
  match Ride.driver ride with
  | Some d => Nat.eqb d user
  | None => false
  end.

(** The [completed] branch: the driver of the ride, when found, becomes
    available and has its counters raised; the passenger, when found, has
    [totalRides] raised. *)
Definition settleCompleted (ride : Ride.t) : Route unit :=
  driver ← Drivers.findById (Ride.driver ride);
  (match Ride.driver ride, driver with
   | Some driverId, Some _ =>
       Drivers.save driverId (Driver.completeRide (Ride.distance ride))
   | _, _ => skip
   end);;
  passenger ← Users.findById (Ride.passenger ride);
  match passenger with
  | Some _ => Users.save (Ride.passenger ride) User.countRide
  | None => skip
  end.

Definition updateRideStatusBody (env : Env) (req : StatusRequest) : Route Response :=
  found ← Rides.findById (st_rideId req);
  match found with
  | None => respond 404 "Ride not found"
  | Some ride =>
    (* Check if user is authorized to update this ride *)
    let isPassenger := isPassengerOf ride (st_user req) in
    let isDriver := isDriverOf ride (st_user req) in
    if negb isPassenger && negb isDriver then
      respond 403 "Not authorized to update this ride"
    else
      (* Validate status transitions: [validTransitions[ride.status]] is
         [undefined] for a status that is not a key, and [.includes] on it
         throws *)
      match property (Ride.status ride) validTransitions with
      | None => throw
      | Some allowed =>
        if negb (includes allowed (st_status req)) then
          respond 400 "Invalid status transition"
        else
          (* Update ride status *)
          Rides.save (st_rideId req) (Ride.updateStatus (st_status req) (now env));;
          (* Update driver location if provided *)
          (match st_location req with
           | Some location =>
               if isDriver then
                 Rides.save (st_rideId req)
                   (Ride.addDriverLocation (lu_coordinates location)
                      (lu_heading location) (lu_speed location) (now env))
               else skip
           | None => skip
           end);;
          (* Emit real-time update; [ride.driver.toString()] throws on [null] *)
          (if io env then
             if isDriver then
               emit (Some (Ride.passenger ride)) "rideStatusUpdate" (st_rideId req)
             else
               match Ride.driver ride with
               | Some d => emit (Some d) "rideStatusUpdate" (st_rideId req)
               | None => throw
               end
           else skip);;
          (* Handle specific status updates *)
          (if String.eqb (st_status req) "completed" then settleCompleted ride else skip);;
          respond 200 "Ride status updated successfully"
      end
  end.

Definition updateRideStatus (env : Env) (req : StatusRequest) : World → Response * World :=
  handle "Failed to update ride status" (updateRideStatusBody env req).

(** ** [POST /:rideId/accept] *)

(** The handler is an [async] function: it runs from one [await] to the next
    without interruption, and other requests may run while it waits.  Each
    segment below is the code between two [await]s together with the
    database operation awaited at its end. *)

Record AcceptRequest := {
  ac_user : ObjectId;
  ac_rideId : ObjectId;
  ac_currentLocation : option Coords
}.

(** The local variables alive after each [await]. *)
Definition RideFound : Type := option (Ride.t * option User.t).
Definition DriverFound : Type := Ride.t * option User.t * option (ObjectId * Driver.t).
Definition RideSaved : Type := Ride.t * option User.t * ObjectId * Driver.t * Coords.
Definition DriverSaved : Type := Ride.t * option User.t * ObjectId * Driver.t.

(** [ride.driver = driver._id; ride.status = 'driver_assigned';
    ride.assignedAt = new Date()]. *)
Definition assign (driverId : ObjectId) (now : Date) (r : Ride.t) : Ride.t :=
  Ride.set_assignedAt (Some now)
    (Ride.set_status "driver_assigned" (Ride.set_driver (Some driverId) r)).

(** [driver.isAvailable = false; driver.currentLocation = { type: 'Point',
    coordinates: currentLocation }]. *)
Definition reserve (currentLocation : Coords) (d : Driver.t) : Driver.t :=
  Driver.set_currentLocation (Some currentLocation) (Driver.set_isAvailable false d).

(** [await Ride.findById(rideId).populate('passenger', 'name phone')]. *)
Definition findRide (req : AcceptRequest) : Route RideFound :=
  Rides.findByIdPopulated (ac_rideId req).

(** The two checks on the ride, then [await Driver.findOne(..)]. *)
Definition findDriver (req : AcceptRequest) (found : RideFound) : Route DriverFound :=
  match found with
  | None => respond 404 "Ride not found"
  | Some (ride, passenger) =>
    if negb (String.eqb (Ride.status ride) "searching") then
      respond 400 "Ride is not available for acceptance"
    else
      driver ← Drivers.findOne (ac_user req);
      mret (ride, passenger, driver)
  end.

(** The checks on the driver and on the distance to the pickup point, the
    changes to the ride, then [await ride.save()].  [currentLocation[1]]
    throws when the body has no [currentLocation]. *)
Definition saveRide (env : Env) (req : AcceptRequest) (found : DriverFound)
    : Route RideSaved :=
  let '(ride, passenger, driver) := found in
  match driver with
  | None => respond 400 "Driver not available"
  | Some (driverId, driver) =>
    if negb (Driver.isAvailableForRides driver) then respond 400 "Driver not available"
    else
      match ac_currentLocation req with
      | None => throw
      | Some currentLocation =>
        let driverDistance := getDistance env currentLocation (Ride.pickup ride) in
        if (5000 <? driverDistance)%Z then respond 400 "Too far from pickup location"
        else
          (* Update ride *)
          Rides.save (ac_rideId req) (assign driverId (now env));;
          mret (assign driverId (now env) ride, passenger, driverId, driver, currentLocation)
      end
  end.

(** The changes to the driver, then [await driver.save()]. *)
Definition saveDriver (req : AcceptRequest) (saved : RideSaved) : Route DriverSaved :=
  let '(ride, passenger, driverId, driver, currentLocation) := saved in
  (* Update driver availability *)
  Drivers.save driverId (reserve currentLocation);;
  mret (ride, passenger, driverId, reserve currentLocation driver).

(** The two events and the response.  [ride.passenger._id] throws when the
    populated passenger is [null]. *)
Definition announce (env : Env) (req : AcceptRequest) (saved : DriverSaved)
    : Route Response :=
  let '(ride, passenger, driverId, driver) := saved in
  (if io env then
     match passenger with
     | Some _ =>
         (* Emit to passenger *)
         emit (Some (Ride.passenger ride)) "rideAccepted" (ac_rideId req);;
         (* Cancel ride request for other drivers *)
         emit None "rideCancelled" (ac_rideId req)
     | None => throw
     end
   else skip);;
  respond 200 "Ride accepted successfully".

(** The handler run without interruption. *)
Definition acceptRideBody (env : Env) (req : AcceptRequest) : Route Response :=
  found ← findRide req;
  found ← findDriver req found;
  saved ← saveRide env req found;
  saved ← saveDriver req saved;
  announce env req saved.

Definition acceptRide (env : Env) (req : AcceptRequest) : World → Response * World :=
  handle "Failed to accept ride" (acceptRideBody env req).

(** *** Several acceptance requests in flight *)

(** Where a request stands: at which [await] it is suspended, with its local
    variables, or the response it has sent. *)
Inductive AcceptPc : Type :=
| Started
| GotRide (found : RideFound)
| GotDriver (found : DriverFound)
| SavedRide (saved : RideSaved)
| SavedDriver (saved : DriverSaved)
| Finished (r : Response).

(** The next segment of a request. *)
Definition acceptSegment (env : Env) (req : AcceptRequest) (pc : AcceptPc)
    : Route AcceptPc :=
  match pc with
  | Started => found ← findRide req; mret (GotRide found)
  | GotRide found => found ← findDriver req found; mret (GotDriver found)
  | GotDriver found => saved ← saveRide env req found; mret (SavedRide saved)
  | SavedRide saved => saved ← saveDriver req saved; mret (SavedDriver saved)
  | SavedDriver saved => r ← announce env req saved; mret (Finished r)
  | Finished r => mret (Finished r)
  end.

(** One segment, with the handler's [catch]. *)
Definition stepAccept (env : Env) (req : AcceptRequest) (pc : AcceptPc) (w : World)
    : AcceptPc * World :=
  match acceptSegment env req pc w with
  | (Next pc', w') => (pc', w')
  | (Respond r, w') => (Finished r, w')
  | (Thrown, w') => (Finished {| code := 500; text := "Failed to accept ride" |}, w')
  end.

Record Attempt := {
  attempt_req : AcceptRequest;
  attempt_pc : AcceptPc
}.

Definition start (req : AcceptRequest) : Attempt :=
  {| attempt_req := req; attempt_pc := Started |}.

(** The event loop: [schedule] names, in order, the request whose next
    segment runs. *)
Fixpoint runSchedule (env : Env) (schedule : list nat) (attempts : list Attempt)
    (w : World) : list Attempt * World :=
  match schedule with
  | [] => (attempts, w)
  | i :: rest =>
    match attempts !! i with
    | Some a =>
      let '(pc', w') := stepAccept env (attempt_req a) (attempt_pc a) w in
      runSchedule env rest
        (<[i := {| attempt_req := attempt_req a; attempt_pc := pc' |}]> attempts) w'
    | None => runSchedule env rest attempts w
    end
  end.

(** The response of the [i]-th request, once sent. *)
Definition responseOf (attempts : list Attempt) (i : nat) : option Response :=
  match attempt_pc <$> attempts !! i with
  | Some (Finished r) => Some r
  | _ => None
  end.

(** The requests that were answered with [200]. *)
Definition winners (attempts : list Attempt) : list AcceptRequest :=
  attempt_req <$>
    List.filter (λ a, match attempt_pc a with
                      | Finished r => Nat.eqb (code r) 200
                      | _ => false
                      end) attempts.

(** ** [PUT /:rideId/cancel] *)

(** [req.user] (its [_id] and [userType]), the ride and the [reason] of the
    body. *)
Record CancelRequest := {
  cn_user : ObjectId;
  cn_userType : string;
  cn_rideId : ObjectId;
  cn_reason : option string
}.

(** [reason || 'No reason provided']: an absent or empty reason is falsy. *)
Definition reasonOrDefault (reason : option string) : string :=
  match reason with
  | Some s => if String.eqb s "" then "No reason provided" else s
  | None => "No reason provided"
  end.

(** [ride.status = 'cancelled'; ride.cancelledAt = new Date();
    ride.cancellationReason = ..; ride.cancelledBy = req.user.userType]. *)
Definition cancelled (req : CancelRequest) (now : Date) (r : Ride.t) : Ride.t :=
  Ride.set_cancelledBy (Some (cn_userType req))
    (Ride.set_cancellationReason (Some (reasonOrDefault (cn_reason req)))
       (Ride.set_cancelledAt (Some now) (Ride.set_status "cancelled" r))).

Definition cancelRideBody (env : Env) (req : CancelRequest) : Route Response :=
  found ← Rides.findById (cn_rideId req);
  match found with
  | None => respond 404 "Ride not found"
  | Some ride =>
    (* Check if user is authorized to cancel this ride *)
    let isPassenger := isPassengerOf ride (cn_user req) in
    let isDriver := isDriverOf ride (cn_user req) in
    if negb isPassenger && negb isDriver then
      respond 403 "Not authorized to cancel this ride"
    else
      (* Check if ride can be cancelled *)
      if includes ["completed"; "cancelled"] (Ride.status ride) then
        respond 400 "Cannot cancel completed or already cancelled ride"
      else
        (* Update ride *)
        Rides.save (cn_rideId req) (cancelled req (now env));;
        (* Update driver availability if driver was assigned *)
        (match Ride.driver ride with
         | Some driverId =>
             driver ← Drivers.findById (Some driverId);
             match driver with
             | Some _ => Drivers.save driverId Driver.cancelRide
             | None => skip
             end
         | None => skip
         end);;
        (* Emit cancellation notification *)
        (if io env then
           let targetUserId :=
             if isPassenger then Ride.driver ride else Some (Ride.passenger ride) in
           match targetUserId with
           | Some target => emit (Some target) "rideCancelled" (cn_rideId req)
           | None => skip
           end
         else skip);;
        respond 200 "Ride cancelled successfully"
  end.

Definition cancelRide (env : Env) (req : CancelRequest) : World → Response * World :=
  handle "Failed to cancel ride" (cancelRideBody env req).

(** ** [PUT /availability] ([routes/drivers.js]) *)

Record AvailabilityRequest := {
  av_user : ObjectId;
  av_isAvailable : bool;
  av_currentLocation : option Coords
}.

(** [driver.isAvailable = isAvailable; driver.isOnline = isAvailable] and,
    when the body has one, the new [currentLocation]. *)
Definition setAvailability (req : AvailabilityRequest) (d : Driver.t) : Driver.t :=
  let d := Driver.set_isOnline (av_isAvailable req)
             (Driver.set_isAvailable (av_isAvailable req) d) in
  match av_currentLocation req with
  | Some currentLocation => Driver.set_currentLocation (Some currentLocation) d
  | None => d
  end.

Definition toggleAvailabilityBody (req : AvailabilityRequest) : Route Response :=
  found ← Drivers.findOne (av_user req);
  match found with
  | None => respond 404 "Driver profile not found"
  | Some (driverId, driver) =>
    if negb (String.eqb (Driver.approvalStatus driver) "approved") then
      respond 400 "Driver not approved yet"
    else
      Drivers.save driverId (setAvailability req);;
      respond 200
        (if av_isAvailable req then "Driver is now available"
         else "Driver is now unavailable")
  end.

Definition toggleAvailability (req : AvailabilityRequest) : World → Response * World :=
  handle "Failed to update availability" (toggleAvailabilityBody req).

(** ** Shape of a verification code *)

Definition isDigit (c : ascii) : bool :=
  (48 <=? nat_of_ascii c)%nat && (nat_of_ascii c <=? 57)%nat.

Fixpoint allDigits (s : string) : bool :=
  match s with
  | EmptyString => true
  | String c rest => isDigit c && allDigits rest
  end.

Definition fourDigits (s : string) : bool :=
  Nat.eqb (String.length s) 4 && allDigits s.

(** ** Sample data *)

Module Sample.

(** A stand-in for the two distance computations of [Env]: 111.32 km per
    degree, measured along the axes. *)
Definition metres (a b : Coords) : Q :=
  111320 * (Qabs (fst a - fst b) + Qabs (snd a - snd b)).

Definition env : Env :=
  {| io := true; now := 1000%nat; random := 1 # 2; newObjectId := 200%nat;
     getDistance := λ a b, Qfloor (metres a b);
     nearDistance := metres |}.

Definition pickupPoint : Coords := (771 # 10, 286 # 10).
Definition destinationPoint : Coords := (772 # 10, 287 # 10).

(** 1.1 km, 2.2 km and 6.7 km from the pickup point. *)
Definition nearPoint : Coords := (7711 # 100, 286 # 10).
Definition midPoint : Coords := (771 # 10, 2862 # 100).
Definition farPoint : Coords := (771 # 10, 2866 # 100).

Definition passengerUser : User.t := {| User.userType := "passenger"; User.totalRides := 0 |}.
Definition driverUser : User.t := {| User.userType := "driver"; User.totalRides := 0 |}.

Definition carDriver (uid : ObjectId) (location : Coords) : Driver.t :=
  {| Driver.userId := uid;
     Driver.backgroundCheckStatus := "approved";
     Driver.isAvailable := true;
     Driver.isOnline := true;
     Driver.currentLocation := Some location;
     Driver.vehicle_type := Car;
     Driver.earnings :=
       {| Driver.today := 0; Driver.thisWeek := 0; Driver.thisMonth := 0;
          Driver.total := 0 |};
     Driver.stats :=
       {| Driver.totalRides := 0; Driver.totalDistance := 0;
          Driver.cancelledRides := 0; Driver.rating := 0;
          Driver.totalRatings := 0 |};
     Driver.approvalStatus := "approved" |}.

(** A 10 km, 20 minute car ride of passenger 1, priced by [calculateFare]. *)
Definition ride (status : string) (driver : option ObjectId) : Ride.t :=
  Ride.calculateFare (getFareConfig Car)
    {| Ride.passenger := 1%nat;
       Ride.driver := driver;
       Ride.vehicleType := Car;
       Ride.pickup := pickupPoint;
       Ride.destination := destinationPoint;
       Ride.distance := 10;
       Ride.estimatedDuration := 20;
       Ride.fare := initialFare;
       Ride.status := status;
       Ride.otp := "5500";
       Ride.assignedAt := None;
       Ride.pickedUpAt := None;
       Ride.droppedAt := None;
       Ride.completedAt := None;
       Ride.cancelledAt := None;
       Ride.cancellationReason := None;
       Ride.cancelledBy := None;
       Ride.promo := None;
       Ride.surge := defaultSurge;
       Ride.driverLocation := [] |}.

Definition people : gmap ObjectId User.t :=
  <[1%nat := passengerUser]> (<[2%nat := driverUser]> (<[3%nat := driverUser]> ∅)).

(** Passenger 1, driver 10 (user 2) and driver 11 (user 3) near the pickup
    point, and ride 100 in the given status. *)
Definition world (status : string) (driver : option ObjectId) : World :=
  {| rides := <[100%nat := ride status driver]> ∅;
     drivers := <[10%nat := carDriver 2%nat nearPoint]> (<[11%nat := carDriver 3%nat midPoint]> ∅);
     users := people;
     outbox := [] |}.

(** No ride yet, and one car driver, 6.7 km from the pickup point. *)
Definition worldFar : World :=
  {| rides := ∅;
     drivers := <[10%nat := carDriver 2%nat farPoint]> ∅;
     users := people;
     outbox := [] |}.

(** The same, with ride 200 of passenger 1 saved in [requested]. *)
Definition worldFarStored : World :=
  {| rides := <[200%nat := ride "requested" None]> ∅;
     drivers := <[10%nat := carDriver 2%nat farPoint]> ∅;
     users := people;
     outbox := [] |}.

Definition request : RideRequest :=
  {| rq_user := 1%nat; rq_pickup := pickupPoint; rq_destination := destinationPoint;
     rq_vehicleType := Car; rq_promoCode := None |}.

Definition accept (user : ObjectId) (location : Coords) : AcceptRequest :=
  {| ac_user := user; ac_rideId := 100%nat; ac_currentLocation := Some location |}.

Definition setStatus (user : ObjectId) (status : string) : StatusRequest :=
  {| st_user := user; st_rideId := 100%nat; st_status := status; st_location := None |}.

End Sample.

(** * Properties *)

(** ** Binary64 rounding *)

(** [Double.round] on numbers whose binary64 value is well known: [0.1],
    [0.1 + 0.2] (0.30000000000000004), a tie that goes to the even
    neighbour ([2^53 + 1]), the smallest subnormal number and half of it. *)
Lemma double_round_known_values :
  Double.round (1 # 10) == 3602879701896397 # 36028797018963968 ∧
  JS.add (Double.round (1 # 10)) (Double.round (2 # 10))
    == 1351079888211149 # 4503599627370496 ∧
  Double.round (inject_Z (2 ^ 53 + 1)) == inject_Z (2 ^ 53) ∧
  Double.round (inject_Z (2 ^ 53 + 3)) == inject_Z (2 ^ 53 + 4) ∧
  Double.round (Double.pow2 (-1074)) == Double.pow2 (-1074) ∧
  Double.round (Double.pow2 (-1075)) == 0 ∧
  Double.round (- (1 # 10)) == - (3602879701896397 # 36028797018963968).
Proof. by vm_compute. Qed.

Lemma pow2_pos (e : Z) : 0 < Double.pow2 e.
Proof. by apply Qpower_0_lt. Qed.

Lemma pow2_nonzero (e : Z) : ¬ Double.pow2 e == 0.
Proof. intros H. pose proof (pow2_pos e) as Hp. rewrite H in Hp. by apply Qlt_irrefl in Hp. Qed.

Lemma pow2_add (a b : Z) : Double.pow2 (a + b) == Double.pow2 a * Double.pow2 b.
Proof. by apply Qpower_plus. Qed.

Lemma pow2_le (a b : Z) : (a <= b)%Z → Double.pow2 a <= Double.pow2 b.
Proof. intros H. by apply Qpower_le_compat_l. Qed.

Lemma pow2_lt (a b : Z) : (a < b)%Z → Double.pow2 a < Double.pow2 b.
Proof. intros H. by apply Qpower_lt_compat_l. Qed.

Lemma pow2_lt_inv (a b : Z) : Double.pow2 a < Double.pow2 b → (a < b)%Z.
Proof. intros H. by apply (Qpower_lt_compat_l_inv 2). Qed.

Lemma pow2_inject (e : Z) : (0 <= e)%Z → Double.pow2 e == inject_Z (2 ^ e).
Proof. intros H. unfold Double.pow2. by rewrite Zpower_Qpower. Qed.

Lemma ilog2_spec (x : Q) : 0 < x → Double.pow2 (Double.ilog2 x) <= x ∧ x < Double.pow2 (Double.ilog2 x + 1).
Proof.
  intros Hx.
  assert (Hn : (0 < Qnum x)%Z) by (unfold Qlt in Hx; cbn in Hx; lia).
  pose proof (Z.log2_spec (Qnum x) Hn) as [Hn1 Hn2].
  pose proof (Z.log2_spec (Zpos (Qden x)) (Pos2Z.is_pos _)) as [Hd1 Hd2].
  pose proof (Z.log2_nonneg (Qnum x)) as Ha.
  pose proof (Z.log2_nonneg (Zpos (Qden x))) as Hb.
  unfold Double.ilog2.
  set (a := Z.log2 (Qnum x)) in *. set (b := Z.log2 (Zpos (Qden x))) in *.
  assert (Hxd : x * inject_Z (Zpos (Qden x)) == inject_Z (Qnum x)).
  { unfold Qeq. cbn. lia. }
  assert (Hup : x < Double.pow2 (a - b + 1)).
  { apply (Qmult_lt_r _ _ (Double.pow2 b)); [apply pow2_pos |].
    rewrite <- pow2_add. replace (a - b + 1 + b)%Z with (a + 1)%Z by lia.
    apply Qle_lt_trans with (x * inject_Z (Zpos (Qden x))).
    - apply Qmult_le_l; [done |]. rewrite pow2_inject by lia. by rewrite <- Zle_Qle.
    - rewrite Hxd, pow2_inject by lia. by rewrite <- Zlt_Qlt. }
  assert (Hlow : Double.pow2 (a - b - 1) < x).
  { apply (Qmult_lt_r _ _ (Double.pow2 (b + 1))); [apply pow2_pos |].
    rewrite <- pow2_add. replace (a - b - 1 + (b + 1))%Z with a by lia.
    apply Qle_lt_trans with (x * inject_Z (Zpos (Qden x))).
    - rewrite Hxd, pow2_inject by lia. by rewrite <- Zle_Qle.
    - apply Qmult_lt_l; [done |]. rewrite pow2_inject by lia. by rewrite <- Zlt_Qlt. }
  destruct (Qle_bool (Double.pow2 (a - b)) x) eqn:E.
  - apply Qle_bool_iff in E. by split.
  - split; [by apply Qlt_le_weak |].
    replace (a - b - 1 + 1)%Z with (a - b)%Z by lia.
    apply Qnot_le_lt. intros H. apply Qle_bool_iff in H. congruence.
Qed.

Lemma ilog2_le (x : Q) (k : Z) : 0 < x → x < Double.pow2 (k + 1) → (Double.ilog2 x <= k)%Z.
Proof.
  intros Hx Hk. destruct (ilog2_spec x Hx) as [Hl _].
  apply Z.lt_succ_r, pow2_lt_inv. by eapply Qle_lt_trans.
Qed.

Lemma ilog2_ge (x : Q) (k : Z) : 0 < x → Double.pow2 k <= x → (k <= Double.ilog2 x)%Z.
Proof.
  intros Hx Hk. destruct (ilog2_spec x Hx) as [_ Hu].
  apply Z.lt_succ_r, pow2_lt_inv. by eapply Qle_lt_trans.
Qed.

Lemma rne_floor (t : Q) : Double.rne t = Qfloor t ∨
  (Double.rne t = (Qfloor t + 1)%Z ∧ 1 # 2 <= t - inject_Z (Qfloor t)).
Proof.
  unfold Double.rne. destruct (Qcompare_spec (t - inject_Z (Qfloor t)) (1 # 2)) as [E | E | E].
  - destruct (Z.even (Qfloor t)); [by left |]. right. split; [done |]. rewrite E. apply Qle_refl.
  - by left.
  - right. split; [done | by apply Qlt_le_weak].
Qed.

Lemma rne_ge (m : Z) (t : Q) : inject_Z m <= t → (m <= Double.rne t)%Z.
Proof.
  intros H. apply Qfloor_resp_le in H. rewrite Qfloor_Z in H.
  destruct (rne_floor t) as [-> | [-> _]]; lia.
Qed.

Lemma rne_le (m : Z) (t : Q) : t <= inject_Z m → (Double.rne t <= m)%Z.
Proof.
  intros H. pose proof (Qfloor_resp_le _ _ H) as Hf. rewrite Qfloor_Z in Hf.
  destruct (rne_floor t) as [-> | [-> Hhalf]]; [done |].
  apply Z.le_succ_l. rewrite Zlt_Qlt.
  apply Qlt_le_trans with t; [| done].
  apply (Qplus_lt_l _ _ (- inject_Z (Qfloor t))).
  rewrite Qplus_opp_r. eapply Qlt_le_trans; [| exact Hhalf]. reflexivity.
Qed.

Lemma rne_below_half (m : Z) (t : Q) : t < inject_Z m + (1 # 2) → (Double.rne t <= m)%Z.
Proof.
  intros H.
  destruct (rne_floor t) as [-> | [-> Hhalf]].
  - apply Z.lt_succ_r. rewrite Zlt_Qlt.
    apply Qle_lt_trans with t; [apply Qfloor_le |].
    eapply Qlt_trans; [exact H |].
    unfold Z.succ. rewrite inject_Z_plus. by apply Qplus_lt_r.
  - apply Z.le_succ_l. rewrite Zlt_Qlt.
    apply (Qplus_lt_l _ _ (1 # 2)).
    eapply Qle_lt_trans; [| exact H].
    apply (Qplus_le_l _ _ (- inject_Z (Qfloor t))).
    assert (E : inject_Z (Qfloor t) + (1 # 2) + - inject_Z (Qfloor t) == 1 # 2) by ring.
    by rewrite E.
Qed.

Lemma Qabs_of_pos (x : Q) : 0 < x → Qabs x = x.
Proof.
  intros Hx. destruct x as [n d]. unfold Qabs. f_equal.
  apply Z.abs_eq. unfold Qlt in Hx. cbn in Hx. lia.
Qed.

Lemma double_round_pos (x : Q) :
  0 < x →
  Double.round x = inject_Z (Double.rne (x / Double.pow2 (Double.cexp x))) * Double.pow2 (Double.cexp x) ∧
  Double.cexp x = Z.max (Double.ilog2 x - 52) (-1074).
Proof.
  intros Hx. unfold Double.round, Double.cexp. rewrite (Qabs_of_pos x Hx).
  destruct (Qeq_bool x 0) eqn:E; [| done].
  apply Qeq_bool_iff in E. rewrite E in Hx. by apply Qlt_irrefl in Hx.
Qed.

Lemma double_round_nonneg (x : Q) : 0 <= x → 0 <= Double.round x.
Proof.
  intros Hx. apply Qle_lteq in Hx as [Hx | Hx].
  - destruct (double_round_pos x Hx) as [-> _].
    apply Qmult_le_0_compat; [| apply Qlt_le_weak, pow2_pos].
    change 0 with (inject_Z 0). rewrite <- Zle_Qle. apply rne_ge.
    apply Qle_shift_div_l; [apply pow2_pos |]. rewrite Qmult_0_l. by apply Qlt_le_weak.
  - unfold Double.round. symmetry in Hx. apply Qeq_bool_iff in Hx. rewrite Hx. apply Qle_refl.
Qed.

(** A number on the grid [m * 2^e] of the binary64 numbers, with
    [0 < m < 2^53] and [e >= -1074], bounds the rounding of what it bounds. *)
Lemma double_round_ge_grid (m e : Z) (x : Q) :
  (0 < m < 2 ^ 53)%Z → (-1074 <= e)%Z →
  inject_Z m * Double.pow2 e <= x →
  inject_Z m * Double.pow2 e <= Double.round x.
Proof.
  intros [Hm0 Hm] He HA.
  assert (HApos : 0 < inject_Z m * Double.pow2 e).
  { apply Qmult_lt_0_compat; [| apply pow2_pos].
    change 0 with (inject_Z 0). rewrite <- Zlt_Qlt. done. }
  assert (Hx : 0 < x) by (by eapply Qlt_le_trans).
  destruct (double_round_pos x Hx) as [-> Hc].
  set (c := Double.cexp x) in *.
  destruct (Z.le_gt_cases c e) as [Hce | Hce].
  - assert (Hgrid : inject_Z m * Double.pow2 e == inject_Z (m * 2 ^ (e - c)) * Double.pow2 c).
    { rewrite inject_Z_mult, <- pow2_inject by lia.
      rewrite <- Qmult_assoc, <- pow2_add. by replace (e - c + c)%Z with e by lia. }
    rewrite Hgrid. apply Qmult_le_r; [apply pow2_pos |].
    rewrite <- Zle_Qle. apply rne_ge.
    apply Qle_shift_div_l; [apply pow2_pos |]. by rewrite <- Hgrid.
  - assert (Hc' : c = (Double.ilog2 x - 52)%Z) by lia.
    destruct (ilog2_spec x Hx) as [Hl _].
    apply Qle_trans with (inject_Z (2 ^ 52) * Double.pow2 c).
    + apply Qle_trans with (Double.pow2 53 * Double.pow2 e).
      * apply Qmult_le_r; [apply pow2_pos |].
        rewrite pow2_inject by lia. rewrite <- Zle_Qle. lia.
      * rewrite <- pow2_inject, <- !pow2_add by lia. apply pow2_le. lia.
    + apply Qmult_le_r; [apply pow2_pos |].
      rewrite <- Zle_Qle. apply rne_ge.
      apply Qle_shift_div_l; [apply pow2_pos |].
      rewrite <- pow2_inject, <- pow2_add by lia.
      by replace (52 + c)%Z with (Double.ilog2 x) by lia.
Qed.

Lemma double_round_le_grid (m e : Z) (x : Q) :
  (0 < m < 2 ^ 53)%Z → (-1074 <= e)%Z →
  0 < x →
  x <= inject_Z m * Double.pow2 e →
  Double.round x <= inject_Z m * Double.pow2 e.
Proof.
  intros [Hm0 Hm] He Hx HB.
  destruct (double_round_pos x Hx) as [-> Hc].
  set (c := Double.cexp x) in *.
  destruct (Z.le_gt_cases c e) as [Hce | Hce].
  - assert (Hgrid : inject_Z m * Double.pow2 e == inject_Z (m * 2 ^ (e - c)) * Double.pow2 c).
    { rewrite inject_Z_mult, <- pow2_inject by lia.
      rewrite <- Qmult_assoc, <- pow2_add. by replace (e - c + c)%Z with e by lia. }
    rewrite Hgrid. apply Qmult_le_r; [apply pow2_pos |].
    rewrite <- Zle_Qle. apply rne_le.
    apply Qle_shift_div_r; [apply pow2_pos |]. by rewrite <- Hgrid.
  - exfalso.
    assert (Hc' : c = (Double.ilog2 x - 52)%Z) by lia.
    destruct (ilog2_spec x Hx) as [Hl _].
    assert (Hlt : inject_Z m * Double.pow2 e < Double.pow2 (Double.ilog2 x)).
    { apply Qlt_le_trans with (Double.pow2 53 * Double.pow2 e).
      - apply Qmult_lt_r; [apply pow2_pos |].
        rewrite pow2_inject by lia. by rewrite <- Zlt_Qlt.
      - rewrite <- pow2_add. apply pow2_le. lia. }
    apply (Qlt_irrefl x).
    eapply Qle_lt_trans; [exact HB |]. by eapply Qlt_le_trans.
Qed.


Lemma ilog2_unique (x : Q) (k : Z) : Double.pow2 k <= x → x < Double.pow2 (k + 1) → Double.ilog2 x = k.
Proof.
  intros Hl Hu.
  assert (Hx : 0 < x) by (eapply Qlt_le_trans; [apply (pow2_pos k) | done]).
  apply Z.le_antisymm; [by apply ilog2_le | by apply ilog2_ge].
Qed.

(** The largest binary64 number below 1 is [1 - 2^-53]. *)
Lemma representable_below_one (r : Q) :
  Double.representable r → r < 1 → r <= 1 - Double.pow2 (-53).
Proof.
  intros Hr H1.
  destruct (Qlt_le_dec (1 - Double.pow2 (-53)) r) as [Hlt | Hle]; [exfalso | done].
  assert (Hhalf : Double.pow2 (-1) <= r).
  { apply Qlt_le_weak. eapply Qle_lt_trans; [| exact Hlt]. by vm_compute. }
  assert (Hx : 0 < r) by (eapply Qlt_le_trans; [apply (pow2_pos (-1)) | done]).
  assert (Hi : Double.ilog2 r = (-1)%Z) by (by apply ilog2_unique).
  destruct (double_round_pos r Hx) as [Hround Hc].
  rewrite Hi in Hc. change (Z.max (-1 - 52) (-1074)) with (-53)%Z in Hc.
  unfold Double.representable in Hr. rewrite Hround, Hc in Hr.
  set (k := Double.rne (r / Double.pow2 (-53))) in *.
  assert (Hk1 : inject_Z (2 ^ 53 - 1) < inject_Z k).
  { apply (Qmult_lt_r _ _ (Double.pow2 (-53))); [apply pow2_pos |].
    rewrite Hr. eapply Qle_lt_trans; [| exact Hlt]. by vm_compute. }
  assert (Hk2 : inject_Z k < inject_Z (2 ^ 53)).
  { apply (Qmult_lt_r _ _ (Double.pow2 (-53))); [apply pow2_pos |].
    rewrite Hr. eapply Qlt_le_trans; [exact H1 |]. by vm_compute. }
  rewrite <- Zlt_Qlt in Hk1, Hk2. lia.
Qed.

Lemma otp_product_range (r : Q) :
  0 <= r → r <= 1 - Double.pow2 (-53) →
  0 <= Double.round (r * 9000) ∧
  Double.round (r * 9000) <= inject_Z (9000 * 2 ^ 39 - 1) * Double.pow2 (-39).
Proof.
  intros H0 H1.
  assert (Hp0 : 0 <= r * 9000) by (by apply Qmult_le_0_compat).
  assert (Hp1 : r * 9000 <= (1 - Double.pow2 (-53)) * 9000) by (by apply Qmult_le_r).
  split; [by apply double_round_nonneg |].
  set (p := r * 9000) in *.
  apply Qle_lteq in Hp0 as [Hp0 | Hp0].
  - destruct (Qlt_le_dec p (Double.pow2 13)) as [Hsmall | Hbig].
    + apply double_round_le_grid; [done | done | done |].
      apply Qlt_le_weak. eapply Qlt_le_trans; [exact Hsmall |]. by vm_compute.
    + assert (Hi : Double.ilog2 p = 13%Z).
      { apply ilog2_unique; [done |].
        eapply Qle_lt_trans; [exact Hp1 |]. by vm_compute. }
      destruct (double_round_pos p Hp0) as [-> Hc].
      rewrite Hi in Hc. change (Z.max (13 - 52) (-1074)) with (-39)%Z in Hc.
      rewrite Hc. apply Qmult_le_r; [apply pow2_pos |].
      rewrite <- Zle_Qle. apply rne_below_half.
      apply Qlt_shift_div_r; [apply pow2_pos |].
      eapply Qle_lt_trans; [exact Hp1 |]. by vm_compute.
  - unfold Double.round. symmetry in Hp0. apply Qeq_bool_iff in Hp0. rewrite Hp0. by vm_compute.
Qed.

Lemma otp_sum_range (r : Q) :
  0 <= r → r <= 1 - Double.pow2 (-53) →
  1000 <= Double.round (1000 + Double.round (r * 9000)) ∧
  Double.round (1000 + Double.round (r * 9000)) < 10000.
Proof.
  intros H0 H1. destruct (otp_product_range r H0 H1) as [HP0 HP1].
  set (P := Double.round (r * 9000)) in *.
  assert (Hs0 : 1000 <= 1000 + P).
  { rewrite <- (Qplus_0_r 1000) at 1. by apply Qplus_le_r. }
  split.
  - change 1000 with (inject_Z 1000 * Double.pow2 0) at 1.
    apply double_round_ge_grid; [done | done |]. exact Hs0.
  - apply Qle_lt_trans with (inject_Z (10000 * 2 ^ 39 - 1) * Double.pow2 (-39)); [| by vm_compute].
    apply double_round_le_grid; [done | done | |].
    + eapply Qlt_le_trans; [| exact Hs0]. reflexivity.
    + apply Qle_trans with (1000 + inject_Z (9000 * 2 ^ 39 - 1) * Double.pow2 (-39)).
      * by apply Qplus_le_r.
      * by vm_compute.
Qed.


(** ** Rounding *)

Lemma round_integral (x : Q) : ∃ z : Z, JS.round x = inject_Z z.
Proof. by exists (Qfloor (x + (1 # 2))). Qed.

Lemma round_monotone (x y : Q) : x <= y → JS.round x <= JS.round y.
Proof.
  intros Hxy. unfold JS.round. rewrite <- Zle_Qle.
  apply Qfloor_resp_le. by apply Qplus_le_l.
Qed.

Lemma round_above_integer (z : Z) (x : Q) : inject_Z z <= x → inject_Z z <= JS.round x.
Proof.
  intros Hz. unfold JS.round. rewrite <- Zle_Qle.
  rewrite <- (Qfloor_Z z). apply Qfloor_resp_le.
  apply Qle_trans with x; [done |].
  rewrite <- (Qplus_0_r x) at 1. by apply Qplus_le_r.
Qed.

Lemma round_of_integer (z : Z) : JS.round (inject_Z z) = inject_Z z.
Proof.
  unfold JS.round. f_equal.
  apply Z.le_antisymm.
  - apply Z.lt_succ_r. rewrite Zlt_Qlt.
    apply Qle_lt_trans with (inject_Z z + (1 # 2)); [apply Qfloor_le |].
    unfold Z.succ. rewrite inject_Z_plus. by apply Qplus_lt_r.
  - rewrite <- (Qfloor_Z z) at 1. apply Qfloor_resp_le.
    rewrite <- (Qplus_0_r (inject_Z z)) at 1. by apply Qplus_le_r.
Qed.

Lemma max_ge_right (a b : Q) : b <= JS.max a b.
Proof.
  unfold JS.max. destruct (Qle_bool a b) eqn:E; [apply Qle_refl |].
  apply Qlt_le_weak, Qnot_le_lt. intros H.
  apply Qle_bool_iff in H. congruence.
Qed.

Lemma max_ge_left (a b : Q) : a <= JS.max a b.
Proof.
  unfold JS.max. destruct (Qle_bool a b) eqn:E; [| apply Qle_refl].
  by apply Qle_bool_iff.
Qed.

Lemma max_monotone (a a' b : Q) : a <= a' → JS.max a b <= JS.max a' b.
Proof.
  intros Ha. unfold JS.max.
  destruct (Qle_bool a b) eqn:E, (Qle_bool a' b) eqn:E'.
  - apply Qle_refl.
  - apply Qlt_le_weak, Qnot_le_lt. intros H. apply Qle_bool_iff in H. congruence.
  - apply Qle_bool_iff in E'. by apply Qle_trans with a'.
  - done.
Qed.

(** Every class has an integral minimum fare. *)
Lemma minimumFare_integral (v : VehicleType) :
  ∃ z : Z, minimumFare (getFareConfig v) = inject_Z z.
Proof. destruct v; by eexists. Qed.

(** ** Fare calculator *)



(** C7: for every vehicle class and all inputs, the total fare is at least
    the minimum fare of the class. *)
Theorem total_at_least_minimum (v : VehicleType) (distance estimatedDuration : Q)
    (surge : Surge) (fare : Fare) :
  minimumFare (getFareConfig v) <=
  totalFare (calculateFare distance estimatedDuration surge fare (getFareConfig v)).
Proof.
  destruct (minimumFare_integral v) as [z Hz].
  unfold calculateFare. cbn [totalFare]. rewrite Hz.
  apply round_above_integer. rewrite <- Hz. apply max_ge_right.
Qed.

(** C8: 10 km and 20 minutes by car without surge or discount: subtotal
    50 + 150 + 40 = 240, platform fee 12, tax 18% of 240 rounded (43), total
    295. *)
Theorem fare_scenario_car :
  let f := calculateFare 10 20 defaultSurge initialFare (getFareConfig Car) in
  baseFare f == 50 ∧ distanceFare f == 150 ∧ timeFare f == 40 ∧
  baseSubtotal f == 240 ∧
  platformFee f == 12 ∧
  taxes f = JS.round (240 * (18 # 100)) ∧ taxes f == 43 ∧
  minimumFare (getFareConfig Car) == 60 ∧
  totalFare f == 295.
Proof. vm_compute. repeat split; intros; discriminate. Qed.

(** C9: the driver earning is the total fare times 0.8, rounded, and earning
    plus commission is the total fare. *)
Theorem earning_and_commission (distance estimatedDuration : Q) (surge : Surge)
    (fare : Fare) (cfg : FareConfig) :
  let f := calculateFare distance estimatedDuration surge fare cfg in
  ∃ earning commission : Q,
    driverEarning f = Some earning ∧
    platformCommission f = Some commission ∧
    earning = JS.round (totalFare f * (8 # 10)) ∧
    earning + commission == totalFare f.
Proof.
  cbn. eexists _, _. repeat split. ring.
Qed.

(** ** Verification code *)

Lemma fourDigits_range_checked :
  forallb (λ n, fourDigits (JS.toString (Z.of_nat n)))
    (seq (Z.to_nat 1000) (Z.to_nat 9000)) = true.
Proof. vm_compute. reflexivity. Qed.

Lemma fourDigits_toString (n : Z) :
  (1000 <= n <= 9999)%Z → fourDigits (JS.toString n) = true.
Proof.
  intros Hn.
  pose proof (proj1 (forallb_forall _ _) fourDigits_range_checked (Z.to_nat n)) as H.
  cbv beta in H. rewrite Z2Nat.id in H by lia.
  apply H, in_seq. lia.
Qed.

Lemma otp_number_range (rnd : Q) :
  Double.representable rnd → 0 <= rnd → rnd < 1 →
  (1000 <= JS.floor (JS.add 1000 (JS.mul rnd 9000)) <= 9999)%Z.
Proof.
  intros Hr H0 H1.
  pose proof (representable_below_one rnd Hr H1) as Hmax.
  destruct (otp_sum_range rnd H0 Hmax) as [Hlow Hhigh].
  unfold JS.floor, JS.add, JS.mul. split.
  - rewrite <- (Qfloor_Z 1000). by apply Qfloor_resp_le.
  - apply Z.lt_succ_r. rewrite Zlt_Qlt.
    eapply Qle_lt_trans; [apply Qfloor_le | exact Hhigh].
Qed.

(** The rounding decides the code: at the binary64 number nearest to one
    third the product rounds up to 3000 and the code is 4000, where the exact
    product gives 3999. *)
Lemma otp_at_one_third :
  generateOTP Double.third = "4000" ∧
  JS.toString (JS.floor (1000 + Double.third * 9000)) = "3999".
Proof. by vm_compute. Qed.

(** C10: whatever binary64 number in [0, 1) [Math.random()] returns, the
    code is the decimal representation of an integer between 1000 and 9999:
    four characters, all of them digits. *)
Theorem otp_four_digits (rnd : Q) :
  Double.representable rnd → 0 <= rnd → rnd < 1 →
  ∃ n : Z, (1000 <= n <= 9999)%Z ∧
    generateOTP rnd = JS.toString n ∧
    String.length (generateOTP rnd) = 4%nat ∧
    allDigits (generateOTP rnd) = true.
Proof.
  intros Hr H0 H1. exists (JS.floor (JS.add 1000 (JS.mul rnd 9000))).
  pose proof (otp_number_range rnd Hr H0 H1) as Hn.
  pose proof (fourDigits_toString _ Hn) as Hd.
  unfold fourDigits in Hd. apply andb_true_iff in Hd as [Hlen Hall].
  apply Nat.eqb_eq in Hlen. by repeat split; try apply Hn.
Qed.

Lemma otp_four_digits_witness :
  Double.representable Double.third ∧ 0 <= Double.third ∧ Double.third < 1 ∧
  ∃ n : Z, (1000 <= n <= 9999)%Z ∧
    generateOTP Double.third = JS.toString n ∧
    String.length (generateOTP Double.third) = 4%nat ∧
    allDigits (generateOTP Double.third) = true.
Proof.
  split; [by vm_compute |]. split; [discriminate |]. split; [reflexivity |].
  apply (otp_four_digits Double.third); [by vm_compute | discriminate | reflexivity].
Defined.

(** ** Acceptance *)

Ltac route_unfold :=
  unfold handle, mbind, Route_bind, mret, Route_ret, respond, throw, skip, emit.

Lemma acceptRide_not_searching (env : Env) (req : AcceptRequest) (w : World)
    (ride : Ride.t) :
  rides w !! ac_rideId req = Some ride →
  Ride.status ride ≠ "searching" →
  acceptRide env req w =
    ({| code := 400; text := "Ride is not available for acceptance" |}, w).
Proof.
  intros Hride Hstatus.
  unfold acceptRide, acceptRideBody, findRide, findDriver, Rides.findByIdPopulated.
  route_unfold. rewrite Hride. cbn.
  destruct (String.eqb_spec (Ride.status ride) "searching"); [done |]. reflexivity.
Qed.

(** C2: an acceptance attempt on a ride whose status is not [searching] is
    answered with 400 "Ride is not available for acceptance" and changes
    neither the ride nor any driver (nor anything else). *)
Theorem accept_rejected_unless_searching (env : Env) (req : AcceptRequest)
    (w : World) (ride : Ride.t) :
  rides w !! ac_rideId req = Some ride →
  Ride.status ride ≠ "searching" →
  acceptRide env req w =
    ({| code := 400; text := "Ride is not available for acceptance" |}, w).
Proof. apply acceptRide_not_searching. Qed.

Lemma accept_rejected_unless_searching_witness :
  let w := Sample.world "driver_assigned" (Some 10%nat) in
  let ride := Sample.ride "driver_assigned" (Some 10%nat) in
  let req := Sample.accept 3%nat Sample.midPoint in
  rides w !! ac_rideId req = Some ride ∧
  Ride.status ride ≠ "searching" ∧
  acceptRide Sample.env req w =
    ({| code := 400; text := "Ride is not available for acceptance" |}, w).
Proof.
  cbv zeta. split; [reflexivity |]. split; [discriminate |].
  apply (accept_rejected_unless_searching Sample.env
           (Sample.accept 3%nat Sample.midPoint)
           (Sample.world "driver_assigned" (Some 10%nat))
           (Sample.ride "driver_assigned" (Some 10%nat)));
    [reflexivity | discriminate].
Defined.

(** C1 fails on the code: two eligible drivers whose requests interleave at
    the [await]s both see the ride in [searching], both save and both are
    answered 200; the ride keeps the driver of the later save, and both
    drivers are left unavailable. *)
Theorem accept_race_two_winners :
  let d1 := Sample.accept 2%nat Sample.nearPoint in
  let d2 := Sample.accept 3%nat Sample.midPoint in
  let w := Sample.world "searching" None in
  let '(attempts, w') :=
    runSchedule Sample.env [0; 1; 0; 1; 0; 1; 0; 1; 0; 1]%nat [start d1; start d2] w in
  Driver.isAvailableForRides <$> drivers w !! 10%nat = Some true ∧
  Driver.isAvailableForRides <$> drivers w !! 11%nat = Some true ∧
  Ride.status <$> rides w !! 100%nat = Some "searching" ∧
  responseOf attempts 0 = Some {| code := 200; text := "Ride accepted successfully" |} ∧
  responseOf attempts 1 = Some {| code := 200; text := "Ride accepted successfully" |} ∧
  winners attempts = [d1; d2] ∧
  Ride.driver <$> rides w' !! 100%nat = Some (Some 11%nat) ∧
  Driver.isAvailable <$> drivers w' !! 10%nat = Some false ∧
  Driver.isAvailable <$> drivers w' !! 11%nat = Some false.
Proof. vm_compute. repeat split. Qed.

(** ** Ride state machine *)

Lemma status_updateStatus (s : string) (now : Date) (r : Ride.t) :
  Ride.status (Ride.updateStatus s now r) = s.
Proof. unfold Ride.updateStatus. by repeat case_match. Qed.

Lemma passenger_updateStatus (s : string) (now : Date) (r : Ride.t) :
  Ride.passenger (Ride.updateStatus s now r) = Ride.passenger r.
Proof. unfold Ride.updateStatus. by repeat case_match. Qed.

Lemma driver_updateStatus (s : string) (now : Date) (r : Ride.t) :
  Ride.driver (Ride.updateStatus s now r) = Ride.driver r.
Proof. unfold Ride.updateStatus. by repeat case_match. Qed.

Lemma includes_spec (array : list string) (x : string) :
  includes array x = true ↔ x ∈ array.
Proof.
  unfold includes. rewrite existsb_exists, list_elem_of_In. split.
  - intros (y & Hy & Heq). apply String.eqb_eq in Heq. by subst.
  - intros Hx. exists x. split; [done | apply String.eqb_refl].
Qed.

(** A status request on a ride in a terminal status is refused and changes
    nothing. *)
Lemma updateRideStatus_terminal (env : Env) (req : StatusRequest) (w : World)
    (ride : Ride.t) :
  rides w !! st_rideId req = Some ride →
  Ride.status ride = "completed" ∨ Ride.status ride = "cancelled" →
  ∃ r, updateRideStatus env req w = (r, w) ∧ (code r = 403 ∨ code r = 400)%nat.
Proof.
  intros Hride Hstatus.
  unfold updateRideStatus, updateRideStatusBody, Rides.findById. route_unfold.
  rewrite Hride.
  destruct (negb (isPassengerOf ride (st_user req)) && negb (isDriverOf ride (st_user req))).
  - eexists. split; [reflexivity | by left].
  - destruct Hstatus as [-> | ->]; cbn; eexists; (split; [reflexivity | by right]).
Qed.

Lemma completed_only_from_in_progress (s : string) (allowed : list string) :
  property s validTransitions = Some allowed →
  includes allowed "completed" = true →
  s = "in_progress".
Proof.
  unfold validTransitions. cbn [property].
  repeat match goal with
         | |- context [String.eqb ?k s] =>
             destruct (String.eqb_spec k s) as [<- | _];
             [intros [= <-] H; cbn in H; by try discriminate H |]
         end.
  done.
Qed.

Lemma earnings_alter_completeRide (distance : Q) (d id : ObjectId)
    (m : gmap ObjectId Driver.t) :
  Driver.earnings <$> alter (Driver.completeRide distance) d m !! id =
  Driver.earnings <$> m !! id.
Proof.
  destruct (decide (d = id)) as [-> | Hne].
  - rewrite lookup_alter_eq. by destruct (m !! id).
  - by rewrite lookup_alter_ne.
Qed.

(** C4, as the code has it: a status request answered 200 with target
    [completed] starts from [in_progress], stores [completed], raises the
    ride counters of the ride's driver (with its distance, and makes the
    driver available) and of the passenger once each, and every later status
    request on that ride is refused without any change; any other outcome of
    a status request leaves all driver and user documents as they were.  No
    status request changes any driver's earnings. *)
Theorem completed_settles_counters (env : Env) (req : StatusRequest) (w : World) :
  let '(r, w') := updateRideStatus env req w in
  (∀ id, Driver.earnings <$> drivers w' !! id = Driver.earnings <$> drivers w !! id) ∧
  if Nat.eqb (code r) 200 && String.eqb (st_status req) "completed" then
    ∃ ride,
      rides w !! st_rideId req = Some ride ∧
      Ride.status ride = "in_progress" ∧
      Ride.status <$> rides w' !! st_rideId req = Some "completed" ∧
      drivers w' =
        match Ride.driver ride with
        | Some d => alter (Driver.completeRide (Ride.distance ride)) d (drivers w)
        | None => drivers w
        end ∧
      users w' = alter User.countRide (Ride.passenger ride) (users w) ∧
      ∀ env' req', st_rideId req' = st_rideId req →
        ∃ r', updateRideStatus env' req' w' = (r', w') ∧ code r' ≠ 200%nat
  else drivers w' = drivers w ∧ users w' = users w.
Proof.
  unfold updateRideStatus at 1. unfold updateRideStatusBody, settleCompleted.
  unfold Rides.findById, Rides.save, Drivers.findById, Drivers.save,
    Users.findById, Users.save.
  route_unfold.
  destruct (rides w !! st_rideId req) as [ride |] eqn:Hride; [| by cbn].
  destruct (negb (isPassengerOf ride (st_user req)) && negb (isDriverOf ride (st_user req)));
    [by cbn |].
  destruct (property (Ride.status ride) validTransitions) as [allowed |] eqn:Hallowed;
    [| by cbn].
  destruct (includes allowed (st_status req)) eqn:Hinc; [| by cbn].
  cbn [negb].
  destruct (String.eqb_spec (st_status req) "completed") as [Hst | Hst].
  - rewrite Hst in Hinc.
    pose proof (completed_only_from_in_progress _ _ Hallowed Hinc) as Hfrom.
    assert (Hlater : ∀ w' : World,
      Ride.status <$> rides w' !! st_rideId req = Some "completed" →
      ∀ env' req', st_rideId req' = st_rideId req →
        ∃ r', updateRideStatus env' req' w' = (r', w') ∧ code r' ≠ 200%nat).
    { intros w' Hw' env' req' Hid.
      destruct (rides w' !! st_rideId req) as [ride' |] eqn:Hride'; [| done].
      injection Hw' as Hw'. rewrite <- Hid in Hride'.
      destruct (updateRideStatus_terminal env' req' w' ride' Hride' (or_introl Hw'))
        as (r' & Hr' & Hcode).
      exists r'. split; [done |]. destruct Hcode as [-> | ->]; done. }
    destruct (st_location req) as [location |], (isDriverOf ride (st_user req)),
      (io env), (Ride.driver ride) as [d |] eqn:Hd; cbn;
      repeat (match goal with
              | |- context [drivers w !! ?i] => destruct (drivers w !! i) eqn:?; cbn
              | |- context [users w !! ?i] => destruct (users w !! i) eqn:?; cbn
              end).
    all: (split;
      [intros id; cbn; first [apply earnings_alter_completeRide | done] |]).
    all: first
      [ by cbn
      | exists ride; rewrite Hd; cbn;
        repeat split; try done;
        first
          [ by rewrite ?lookup_alter_eq, Hride; cbn; rewrite status_updateStatus, Hst
          | by symmetry; apply alter_id; intros x Hx; congruence
          | apply Hlater; cbn;
            by rewrite ?lookup_alter_eq, Hride; cbn; rewrite status_updateStatus, Hst ] ].
  - destruct (st_location req) as [location |], (isDriverOf ride (st_user req)),
      (io env), (Ride.driver ride) as [d |]; cbn; rewrite ?andb_false_r; done.
Qed.

Lemma completed_settles_counters_witness :
  let req := Sample.setStatus 1%nat "completed" in
  let w := Sample.world "in_progress" (Some 10%nat) in
  let '(r, w') := updateRideStatus Sample.env req w in
  (∀ id, Driver.earnings <$> drivers w' !! id = Driver.earnings <$> drivers w !! id) ∧
  if Nat.eqb (code r) 200 && String.eqb (st_status req) "completed" then
    ∃ ride,
      rides w !! st_rideId req = Some ride ∧
      Ride.status ride = "in_progress" ∧
      Ride.status <$> rides w' !! st_rideId req = Some "completed" ∧
      drivers w' =
        match Ride.driver ride with
        | Some d => alter (Driver.completeRide (Ride.distance ride)) d (drivers w)
        | None => drivers w
        end ∧
      users w' = alter User.countRide (Ride.passenger ride) (users w) ∧
      ∀ env' req', st_rideId req' = st_rideId req →
        ∃ r', updateRideStatus env' req' w' = (r', w') ∧ code r' ≠ 200%nat
  else drivers w' = drivers w ∧ users w' = users w.
Proof.
  exact (completed_settles_counters Sample.env (Sample.setStatus 1%nat "completed")
           (Sample.world "in_progress" (Some 10%nat))).
Defined.

(** C4 as stated fails: completing a ride in progress raises the two ride
    counters, but the driver's earnings stay where they were, although the
    ride carries a driver earning of 236. *)
Lemma completed_credits_no_earnings :
  let w := Sample.world "in_progress" (Some 10%nat) in
  let '(r, w') := updateRideStatus Sample.env (Sample.setStatus 1%nat "completed") w in
  r = {| code := 200; text := "Ride status updated successfully" |} ∧
  Ride.status <$> rides w' !! 100%nat = Some "completed" ∧
  (Ride.fare <$> rides w !! 100%nat) ≫= driverEarning = Some 236 ∧
  Driver.totalRides ∘ Driver.stats <$> drivers w' !! 10%nat = Some 1%Z ∧
  User.totalRides <$> users w' !! 1%nat = Some 1%Z ∧
  Driver.earnings <$> drivers w' !! 10%nat = Driver.earnings <$> drivers w !! 10%nat ∧
  Driver.earnings <$> drivers w' !! 10%nat ≠
    Driver.earnings <$> (Driver.updateEarnings 236 <$> drivers w !! 10%nat).
Proof. vm_compute. repeat split. discriminate. Qed.

(** C3 fails on the code for a ride in [requested]: the table of the status
    route has no entry for that status, the lookup throws, and the request
    for a target outside the table is answered 500 "Failed to update ride
    status" instead of 400 "Invalid status transition" (the ride is left
    unchanged).  The same request on a ride in [searching] gets the 400. *)
Theorem status_update_from_requested_throws :
  let req := Sample.setStatus 1%nat "completed" in
  let w := Sample.world "requested" None in
  property "requested" validTransitions = None ∧
  updateRideStatus Sample.env req w =
    ({| code := 500; text := "Failed to update ride status" |}, w) ∧
  updateRideStatus Sample.env req (Sample.world "searching" None) =
    ({| code := 400; text := "Invalid status transition" |},
     Sample.world "searching" None).
Proof. vm_compute. repeat split. Qed.

(** ** Ride request *)

Lemma filter_none {A} (f : A → bool) (l : list A) :
  (∀ x, x ∈ l → f x = false) → List.filter f l = [].
Proof.
  induction l as [| a l IH]; intros H; [done |]. cbn.
  rewrite (H a) by apply list_elem_of_here.
  apply IH. intros x Hx. apply H. by apply list_elem_of_further.
Qed.

Lemma findNear_none (env : Env) (v : VehicleType) (center : Coords) (radius : Q)
    (w : World) :
  (∀ id d, drivers w !! id = Some d → Drivers.matches env v center radius d = false) →
  Drivers.findNear env v center radius w = (Next [], w).
Proof.
  intros H. unfold Drivers.findNear. rewrite filter_none; [done |].
  intros d Hd. apply list_elem_of_fmap in Hd as ([id d'] & -> & Hd).
  apply elem_of_map_to_list in Hd. by apply (H id).
Qed.

(** C5, as the code has it: once the ride of a request is saved, a search
    that finds no matching driver within the 5 km radius is not widened: the
    request is answered at once with 400 "No drivers available in your
    area", the ride is stored [cancelled] with reason "No drivers available",
    without a driver and with its fare as it was, whatever drivers are
    farther away; no other ride, no driver, no user and no event is touched. *)
Theorem no_candidates_cancels_at_once (env : Env) (req : RideRequest)
    (rideId : ObjectId) (w : World) (ride : Ride.t) :
  rides w !! rideId = Some ride →
  (∀ id d, drivers w !! id = Some d →
     Drivers.matches env (rq_vehicleType req) (rq_pickup req) maxDistance d = false) →
  let '(r, w') := findDriversAndOfferHandled env req rideId w in
  r = {| code := 400; text := "No drivers available in your area" |} ∧
  (∃ ride', rides w' !! rideId = Some ride' ∧
     Ride.status ride' = "cancelled" ∧
     Ride.cancellationReason ride' = Some "No drivers available" ∧
     Ride.driver ride' = Ride.driver ride ∧
     Ride.fare ride' = Ride.fare ride) ∧
  (∀ id, id ≠ rideId → rides w' !! id = rides w !! id) ∧
  drivers w' = drivers w ∧ users w' = users w ∧ outbox w' = outbox w.
Proof.
  intros Hride Hnone.
  unfold findDriversAndOfferHandled, findDriversAndOffer. route_unfold.
  rewrite findNear_none by done.
  cbn. repeat split.
  - eexists. rewrite lookup_alter_eq, Hride. cbn. by repeat split.
  - intros id Hid. by rewrite lookup_alter_ne.
Qed.

Lemma no_candidates_cancels_at_once_witness :
  let env := Sample.env in
  let req := Sample.request in
  let w := Sample.worldFarStored in
  let ride := Sample.ride "requested" None in
  rides w !! 200%nat = Some ride ∧
  let '(r, w') := findDriversAndOfferHandled env req 200%nat w in
  r = {| code := 400; text := "No drivers available in your area" |} ∧
  (∃ ride', rides w' !! 200%nat = Some ride' ∧
     Ride.status ride' = "cancelled" ∧
     Ride.cancellationReason ride' = Some "No drivers available" ∧
     Ride.driver ride' = Ride.driver ride ∧
     Ride.fare ride' = Ride.fare ride) ∧
  (∀ id, id ≠ 200%nat → rides w' !! id = rides w !! id) ∧
  drivers w' = drivers w ∧ users w' = users w ∧ outbox w' = outbox w.
Proof.
  cbv zeta. split; [reflexivity |].
  apply (no_candidates_cancels_at_once Sample.env Sample.request 200%nat
           Sample.worldFarStored (Sample.ride "requested" None)).
  - reflexivity.
  - intros id d Hd. unfold Sample.worldFarStored in Hd. cbn [drivers] in Hd.
    apply lookup_insert_Some in Hd as [[_ <-] | [_ Hd]]; [reflexivity |].
    by rewrite lookup_empty in Hd.
Defined.

(** C5 as stated fails.  With one eligible car driver 6.7 km from the pickup
    point, the saved ride is cancelled after the single 5 km search, although
    a search with a radius of 10 km finds that driver: there is no
    escalation.  And the request itself does not get that far: it is
    answered 500 with no ride stored, so no ride ends [cancelled]. *)
Lemma no_escalation_counterexample :
  (let '(r, w') :=
     findDriversAndOfferHandled Sample.env Sample.request 200%nat Sample.worldFarStored in
   r = {| code := 400; text := "No drivers available in your area" |} ∧
   Ride.status <$> rides w' !! 200%nat = Some "cancelled" ∧
   Ride.cancellationReason <$> rides w' !! 200%nat = Some (Some "No drivers available") ∧
   ∃ found,
     Drivers.findNear Sample.env Car Sample.pickupPoint 10000 Sample.worldFarStored =
       (Next found, Sample.worldFarStored) ∧ length found = 1%nat) ∧
  requestRide Sample.env Sample.request Sample.worldFar =
    ({| code := 500; text := "Failed to request ride" |}, Sample.worldFar) ∧
  rides Sample.worldFar !! newObjectId Sample.env = None.
Proof. vm_compute. repeat split. eexists. split; reflexivity. Qed.

(** ** Further properties of the fare calculator *)

Lemma total_ge_minimum (v : VehicleType) (distance estimatedDuration : Q)
    (surge : Surge) (fare : Fare) :
  minimumFare (getFareConfig v) <=
  totalFare (calculateFare distance estimatedDuration surge fare (getFareConfig v)).
Proof.
  destruct (minimumFare_integral v) as [z Hz].
  unfold calculateFare. cbn [totalFare]. rewrite Hz.
  apply round_above_integer. rewrite <- Hz. apply max_ge_right.
Qed.

Lemma minimumFare_positive (v : VehicleType) : 0 < minimumFare (getFareConfig v).
Proof. by destruct v. Qed.

Lemma round_share_le (z : Z) : (0 <= z)%Z → JS.round (inject_Z z * (8 # 10)) <= inject_Z z.
Proof.
  intros Hz. unfold JS.round. rewrite <- Zle_Qle.
  apply Z.lt_succ_r. rewrite Zlt_Qlt.
  eapply Qle_lt_trans; [apply Qfloor_le |].
  unfold Z.succ. rewrite inject_Z_plus.
  rewrite Zle_Qle in Hz.
  unfold Qlt, Qle in *. cbn in *. lia.
Qed.

(** X1: The split never gives the driver more than the fare: for every vehicle
    class the driver earning lies between 0 and the total fare, and the
    platform commission is not negative. *)
Theorem split_within_fare (v : VehicleType) (distance estimatedDuration : Q)
    (surge : Surge) (fare : Fare) :
  let f := calculateFare distance estimatedDuration surge fare (getFareConfig v) in
  ∃ earning commission : Q,
    driverEarning f = Some earning ∧ platformCommission f = Some commission ∧
    0 <= earning ∧ earning <= totalFare f ∧ 0 <= commission.
Proof.
  cbv zeta.
  pose proof (total_ge_minimum v distance estimatedDuration surge fare) as Hmin.
  pose proof (minimumFare_positive v) as Hpos.
  set (f := calculateFare distance estimatedDuration surge fare (getFareConfig v)) in *.
  assert (Htot : ∃ z, totalFare f = inject_Z z) by apply round_integral.
  destruct Htot as [z Hz].
  assert (H0 : (0 <= z)%Z).
  { rewrite Zle_Qle. rewrite <- Hz. apply Qlt_le_weak.
    by eapply Qlt_le_trans. }
  exists (JS.round (totalFare f * (8 # 10))),
         (totalFare f - JS.round (totalFare f * (8 # 10))).
  split; [reflexivity |]. split; [reflexivity |].
  rewrite Hz. pose proof (round_share_le z H0) as Hle.
  split; [| split; [done |]].
  - apply (round_above_integer 0). rewrite Zle_Qle in H0.
    unfold Qle in *. cbn in *. lia.
  - unfold Qminus. rewrite <- (Qplus_opp_r (JS.round (inject_Z z * (8 # 10)))).
    by apply Qplus_le_l.
Qed.

Lemma round_minus_round (x y : Q) : ∃ z : Z, JS.round x - JS.round y == inject_Z z.
Proof.
  exists (Qfloor (x + (1 # 2)) - Qfloor (y + (1 # 2)))%Z.
  unfold JS.round, Z.sub, Qminus. by rewrite inject_Z_plus, inject_Z_opp.
Qed.

(** X2: Fee, tax, total, earning and commission are whole amounts, whatever the
    configuration and the inputs. *)
Theorem amounts_are_whole (distance estimatedDuration : Q) (surge : Surge)
    (fare : Fare) (cfg : FareConfig) :
  let f := calculateFare distance estimatedDuration surge fare cfg in
  (∃ z, platformFee f = inject_Z z) ∧
  (∃ z, taxes f = inject_Z z) ∧
  (∃ z, totalFare f = inject_Z z) ∧
  (∃ z, driverEarning f = Some (inject_Z z)) ∧
  (∃ z commission, platformCommission f = Some commission ∧ commission == inject_Z z).
Proof.
  cbv zeta. repeat split; try (eexists; reflexivity).
  edestruct round_minus_round as [z Hz].
  exists z. eexists. split; [reflexivity | exact Hz].
Qed.

(** X3: Pricing a ride again gives the same breakdown: [calculateFare] reads the
    discounts and, when the surge flag is clear, the stored surge fare, and
    overwrites the rest. *)
Theorem calculateFare_idempotent (distance estimatedDuration : Q) (surge : Surge)
    (fare : Fare) (cfg : FareConfig) :
  calculateFare distance estimatedDuration surge
    (calculateFare distance estimatedDuration surge fare cfg) cfg =
  calculateFare distance estimatedDuration surge fare cfg.
Proof. unfold calculateFare. cbn. by destruct (isActive surge). Qed.

(** X4: A longer ride is never cheaper: with a per-kilometre rate that is not
    negative and, when the surge flag is set, a multiplier that is not
    negative, the total fare does not decrease with the distance. *)
Theorem total_monotone_in_distance (d1 d2 estimatedDuration : Q) (surge : Surge)
    (fare : Fare) (cfg : FareConfig) :
  0 <= perKmRate cfg →
  (isActive surge = true → 0 <= multiplier surge) →
  d1 <= d2 →
  totalFare (calculateFare d1 estimatedDuration surge fare cfg) <=
  totalFare (calculateFare d2 estimatedDuration surge fare cfg).
Proof.
  intros Hrate Hmult Hd. unfold calculateFare. cbn [totalFare].
  apply round_monotone, max_monotone.
  assert (Hsub : baseRate cfg + d1 * perKmRate cfg + estimatedDuration * perMinuteRate cfg
                 <= baseRate cfg + d2 * perKmRate cfg + estimatedDuration * perMinuteRate cfg).
  { apply Qplus_le_l, Qplus_le_r. by apply Qmult_le_compat_r. }
  set (s1 := baseRate cfg + d1 * perKmRate cfg + estimatedDuration * perMinuteRate cfg) in *.
  set (s2 := baseRate cfg + d2 * perKmRate cfg + estimatedDuration * perMinuteRate cfg) in *.
  assert (Hfull : ∀ a b, a <= b →
            a + JS.round (a * (5 # 100)) + JS.round (a * (18 # 100))
              - (discount fare + couponDiscount fare) <=
            b + JS.round (b * (5 # 100)) + JS.round (b * (18 # 100))
              - (discount fare + couponDiscount fare)).
  { intros a b Hab. apply Qplus_le_l.
    apply Qplus_le_compat; [apply Qplus_le_compat; [done |] |];
      apply round_monotone; by apply Qmult_le_compat_r. }
  destruct (isActive surge); [| by apply Hfull].
  apply Hfull.
  assert (Hm : ∀ s, s + s * (multiplier surge - 1) == s * multiplier surge)
    by (intros; ring).
  rewrite !Hm. apply Qmult_le_compat_r; [done | by apply Hmult].
Qed.

Lemma total_monotone_in_distance_witness :
  0 <= perKmRate (getFareConfig Car) ∧
  (isActive defaultSurge = true → 0 <= multiplier defaultSurge) ∧
  5 <= 10 ∧
  totalFare (calculateFare 5 20 defaultSurge initialFare (getFareConfig Car)) <=
  totalFare (calculateFare 10 20 defaultSurge initialFare (getFareConfig Car)).
Proof.
  split; [discriminate |]. split; [discriminate |]. split; [discriminate |].
  apply (total_monotone_in_distance 5 10 20 defaultSurge initialFare (getFareConfig Car));
    discriminate.
Defined.

(** X5: The estimated duration is a whole number of minutes, and for a trip
    of at least the minimum length of 0.5 km it is 2 minutes or more. *)
Theorem estimated_duration_minimum (distance : Q) :
  1 # 2 <= distance →
  let minutes := calculateEstimatedDuration distance in
  (∃ z, minutes = inject_Z z) ∧ 2 <= minutes.
Proof.
  intros Hd. cbv zeta. unfold calculateEstimatedDuration, JS.ceil, JS.mul, JS.div.
  split; [by eexists |].
  assert (Hq : inject_Z 5 * Double.pow2 (-8) <= Double.round (distance / 25)).
  { apply double_round_ge_grid; [done | done |].
    apply Qle_trans with ((1 # 2) / 25); [by vm_compute |].
    apply Qmult_le_compat_r; [done | discriminate]. }
  assert (Hm : inject_Z 75 * Double.pow2 (-6) <= Double.round (Double.round (distance / 25) * 60)).
  { apply double_round_ge_grid; [done | done |].
    apply Qle_trans with (inject_Z 5 * Double.pow2 (-8) * 60); [by vm_compute |].
    apply Qmult_le_compat_r; [done | discriminate]. }
  change 2 with (inject_Z (Z.succ 1)). rewrite <- Zle_Qle.
  apply Z.le_succ_l. rewrite Zlt_Qlt.
  eapply Qlt_le_trans; [| apply Qle_ceiling].
  eapply Qlt_le_trans; [| exact Hm]. by vm_compute.
Qed.

Lemma estimated_duration_minimum_witness :
  1 # 2 <= 415 # 4 ∧
  (∃ z, calculateEstimatedDuration (415 # 4) = inject_Z z) ∧
  2 <= calculateEstimatedDuration (415 # 4).
Proof.
  split; [discriminate |].
  apply (estimated_duration_minimum (415 # 4)). discriminate.
Defined.

(** The rounding decides the estimate: at 103.75 km the rounded product is
    just above 249 and the estimate is 250 minutes, where the exact product is
    249. *)
Lemma estimated_duration_at_103_75 :
  calculateEstimatedDuration (415 # 4) == 250 ∧
  JS.ceil ((415 # 4) / 25 * 60) = 249%Z.
Proof. by vm_compute. Qed.

(** ** Driver location samples *)

Lemma length_slice_last {A} (n : nat) (l : list A) :
  length (Ride.slice_last n l) = Nat.min n (length l).
Proof. unfold Ride.slice_last. rewrite length_skipn. lia. Qed.

(** X6: [addDriverLocation] appends the sample as the newest entry and keeps at
    most the 50 most recent ones: the stored list is a suffix of the old list
    followed by the new sample, of length [min (old length + 1) 50], and no
    other field of the ride changes. *)
Theorem addDriverLocation_keeps_last_50 (coordinates : Coords) (heading speed : option Q)
    (now : Date) (r : Ride.t) :
  let sample := {| ls_coordinates := coordinates; ls_heading := heading;
                   ls_speed := speed; ls_timestamp := now |} in
  let r' := Ride.addDriverLocation coordinates heading speed now r in
  length (Ride.driverLocation r') = Nat.min (length (Ride.driverLocation r) + 1) 50 ∧
  last (Ride.driverLocation r') = Some sample ∧
  Ride.driverLocation r' `suffix_of` (Ride.driverLocation r ++ [sample])%list ∧
  Ride.set_driverLocation (Ride.driverLocation r) r' = r.
Proof.
  cbv zeta. unfold Ride.addDriverLocation. cbn [Ride.driverLocation Ride.set_driverLocation].
  set (pushed := (Ride.driverLocation r ++ [_])%list).
  assert (Hlen : length pushed = (length (Ride.driverLocation r) + 1)%nat).
  { unfold pushed. rewrite length_app. reflexivity. }
  split; [| split; [| split]].
  - destruct (Nat.ltb_spec 50 (length pushed)).
    + rewrite length_slice_last. lia.
    + lia.
  - destruct (Nat.ltb_spec 50 (length pushed)).
    + unfold Ride.slice_last. rewrite Hlen. unfold pushed. rewrite skipn_app.
      replace (length (Ride.driverLocation r) + 1 - 50 - length (Ride.driverLocation r))%nat
        with 0%nat by lia.
      apply last_snoc.
    + unfold pushed. by rewrite last_snoc.
  - destruct (Nat.ltb_spec 50 (length pushed)); [| done].
    apply suffix_drop.
  - by destruct r.
Qed.

(** ** Further properties of the status route *)

Lemma table_steps (s t : string) (allowed : list string) :
  property s validTransitions = Some allowed →
  includes allowed t = true →
  (s, t) ∈ [ ("searching", "cancelled");
             ("driver_assigned", "driver_arrived"); ("driver_assigned", "cancelled");
             ("driver_arrived", "pickup_confirmed"); ("driver_arrived", "cancelled");
             ("pickup_confirmed", "in_progress");
             ("in_progress", "completed") ].
Proof.
  unfold validTransitions. cbn [property].
  repeat match goal with
         | |- context [String.eqb ?k s] =>
             destruct (String.eqb_spec k s) as [<- | _];
             [intros [= <-] H; apply includes_spec in H;
              repeat (apply elem_of_cons in H as [-> | H]; [set_solver |]);
              by apply elem_of_nil in H |]
         end.
  done.
Qed.

Lemma updateRideStatus_inversion (env : Env) (req : StatusRequest) (w : World)
    (r : Response) (w' : World) :
  updateRideStatus env req w = (r, w') →
  (code r = 404%nat ∧ w' = w ∧ rides w !! st_rideId req = None) ∨
  ∃ ride, rides w !! st_rideId req = Some ride ∧
    ((code r = 403%nat ∧ w' = w ∧
      isPassengerOf ride (st_user req) = false ∧ isDriverOf ride (st_user req) = false) ∨
     ((isPassengerOf ride (st_user req) = true ∨ isDriverOf ride (st_user req) = true) ∧
      ((code r = 500%nat ∧ w' = w ∧ property (Ride.status ride) validTransitions = None) ∨
       ∃ allowed, property (Ride.status ride) validTransitions = Some allowed ∧
         ((code r = 400%nat ∧ w' = w ∧ includes allowed (st_status req) = false) ∨
          (includes allowed (st_status req) = true ∧
           (code r = 200%nat ∨ code r = 500%nat) ∧
           Ride.status <$> rides w' !! st_rideId req = Some (st_status req)))))).
Proof.
  unfold updateRideStatus, updateRideStatusBody, settleCompleted.
  unfold Rides.findById, Rides.save, Drivers.findById, Drivers.save,
    Users.findById, Users.save.
  route_unfold.
  destruct (rides w !! st_rideId req) as [ride |] eqn:Hride;
    [| intros [= <- <-]; by left].
  destruct (isPassengerOf ride (st_user req)) eqn:Hp,
    (isDriverOf ride (st_user req)) eqn:Hd; cbn [negb andb].
  4: { intros [= <- <-]. right. exists ride. split; [done |]. by left. }
  all: destruct (property (Ride.status ride) validTransitions) as [allowed |] eqn:Hallowed;
    [| intros [= <- <-]; right; exists ride; split; [done |];
       right; split; [auto |]; by left].
  all: destruct (includes allowed (st_status req)) eqn:Hinc; cbn [negb];
    [| intros [= <- <-]; right; exists ride; split; [done |];
       right; split; [auto |]; right; exists allowed; split; [done |]; by left].
  all: destruct (st_location req) as [location |], (io env),
         (Ride.driver ride) as [d |], (String.eqb (st_status req) "completed"); cbn;
       repeat (match goal with
               | |- context [drivers ?x !! ?i] => destruct (drivers x !! i); cbn
               | |- context [users ?x !! ?i] => destruct (users x !! i); cbn
               end);
       intros [= <- <-]; cbn;
       right; exists ride; (split; [done |]);
       right; (split; [auto |]); right; exists allowed; (split; [done |]);
       right; (split; [done |]); (split; [auto |]);
       by rewrite ?lookup_alter_eq, Hride; cbn; rewrite status_updateStatus.
Qed.

(** X8: A status request from the passenger or the driver of a ride whose status
    is a key of the table, for a target that the table does not allow from
    that status, is answered 400 "Invalid status transition" and changes
    nothing. *)
Theorem invalid_transition_rejected (env : Env) (req : StatusRequest) (w : World)
    (ride : Ride.t) (allowed : list string) :
  rides w !! st_rideId req = Some ride →
  isPassengerOf ride (st_user req) || isDriverOf ride (st_user req) = true →
  property (Ride.status ride) validTransitions = Some allowed →
  includes allowed (st_status req) = false →
  updateRideStatus env req w =
    ({| code := 400; text := "Invalid status transition" |}, w).
Proof.
  intros Hride Hauth Hallowed Hinc.
  unfold updateRideStatus, updateRideStatusBody, Rides.findById. route_unfold.
  rewrite Hride, <- negb_orb, Hauth, Hallowed, Hinc. reflexivity.
Qed.

Lemma invalid_transition_rejected_witness :
  let req := Sample.setStatus 1%nat "in_progress" in
  let w := Sample.world "driver_assigned" (Some 10%nat) in
  let ride := Sample.ride "driver_assigned" (Some 10%nat) in
  rides w !! st_rideId req = Some ride ∧
  isPassengerOf ride (st_user req) || isDriverOf ride (st_user req) = true ∧
  property (Ride.status ride) validTransitions = Some ["driver_arrived"; "cancelled"] ∧
  includes ["driver_arrived"; "cancelled"] (st_status req) = false ∧
  updateRideStatus Sample.env req w =
    ({| code := 400; text := "Invalid status transition" |}, w).
Proof.
  cbv zeta. repeat (split; [reflexivity |]).
  apply (invalid_transition_rejected Sample.env (Sample.setStatus 1%nat "in_progress")
           (Sample.world "driver_assigned" (Some 10%nat))
           (Sample.ride "driver_assigned" (Some 10%nat))
           ["driver_arrived"; "cancelled"]); reflexivity.
Defined.

(** X9: A status request from the passenger or the driver of a ride whose status
    is not a key of the table ([requested], [payment_pending]) makes the
    lookup throw: whatever the target, the answer is 500 "Failed to update
    ride status" and nothing changes. *)
Theorem status_outside_table_throws (env : Env) (req : StatusRequest) (w : World)
    (ride : Ride.t) :
  rides w !! st_rideId req = Some ride →
  isPassengerOf ride (st_user req) || isDriverOf ride (st_user req) = true →
  Ride.status ride = "requested" ∨ Ride.status ride = "payment_pending" →
  updateRideStatus env req w =
    ({| code := 500; text := "Failed to update ride status" |}, w).
Proof.
  intros Hride Hauth Hstatus.
  unfold updateRideStatus, updateRideStatusBody, Rides.findById. route_unfold.
  rewrite Hride, <- negb_orb, Hauth. by destruct Hstatus as [-> | ->].
Qed.

Lemma status_outside_table_throws_witness :
  let req := Sample.setStatus 1%nat "cancelled" in
  let w := Sample.world "requested" None in
  let ride := Sample.ride "requested" None in
  rides w !! st_rideId req = Some ride ∧
  isPassengerOf ride (st_user req) || isDriverOf ride (st_user req) = true ∧
  (Ride.status ride = "requested" ∨ Ride.status ride = "payment_pending") ∧
  updateRideStatus Sample.env req w =
    ({| code := 500; text := "Failed to update ride status" |}, w).
Proof.
  cbv zeta. split; [reflexivity |]. split; [reflexivity |]. split; [by left |].
  apply (status_outside_table_throws Sample.env (Sample.setStatus 1%nat "cancelled")
           (Sample.world "requested" None) (Sample.ride "requested" None));
    [reflexivity | reflexivity | by left].
Defined.

(** X10: Every status request answered 200 is a step of the table: the ride was
    in a status from which the table allows the requested one, and the stored
    status is the requested one.  In particular no status request puts a ride
    (back) into [requested], [searching] or [driver_assigned]. *)
Theorem accepted_status_is_a_table_step (env : Env) (req : StatusRequest) (w : World)
    (r : Response) (w' : World) :
  updateRideStatus env req w = (r, w') →
  code r = 200%nat →
  ∃ ride, rides w !! st_rideId req = Some ride ∧
    (Ride.status ride, st_status req) ∈
      [ ("searching", "cancelled");
        ("driver_assigned", "driver_arrived"); ("driver_assigned", "cancelled");
        ("driver_arrived", "pickup_confirmed"); ("driver_arrived", "cancelled");
        ("pickup_confirmed", "in_progress");
        ("in_progress", "completed") ] ∧
    Ride.status <$> rides w' !! st_rideId req = Some (st_status req) ∧
    st_status req ∉ ["requested"; "searching"; "driver_assigned"].
Proof.
  intros Hrun Hcode.
  destruct (updateRideStatus_inversion env req w r w' Hrun)
    as [(? & _) | (ride & Hride & [(? & _) | (_ & [(? & _) | (allowed & Hallowed & H)])])];
    try congruence.
  destruct H as [(? & _) | (Hinc & _ & Hstored)]; [congruence |].
  exists ride. pose proof (table_steps _ _ _ Hallowed Hinc) as Hstep.
  repeat split; [done .. |].
  intros Hbad. apply list_elem_of_In in Hbad, Hstep. cbn in Hbad, Hstep.
  intuition congruence.
Qed.

Lemma accepted_status_is_a_table_step_witness :
  let req := Sample.setStatus 1%nat "driver_arrived" in
  let w := Sample.world "driver_assigned" (Some 10%nat) in
  let rw := updateRideStatus Sample.env req w in
  code (fst rw) = 200%nat ∧
  ∃ ride, rides w !! st_rideId req = Some ride ∧
    (Ride.status ride, st_status req) ∈
      [ ("searching", "cancelled");
        ("driver_assigned", "driver_arrived"); ("driver_assigned", "cancelled");
        ("driver_arrived", "pickup_confirmed"); ("driver_arrived", "cancelled");
        ("pickup_confirmed", "in_progress");
        ("in_progress", "completed") ] ∧
    Ride.status <$> rides (snd rw) !! st_rideId req = Some (st_status req) ∧
    st_status req ∉ ["requested"; "searching"; "driver_assigned"].
Proof.
  cbv zeta. split; [reflexivity |].
  apply (accepted_status_is_a_table_step Sample.env
           (Sample.setStatus 1%nat "driver_arrived")
           (Sample.world "driver_assigned" (Some 10%nat))
           (fst (updateRideStatus Sample.env (Sample.setStatus 1%nat "driver_arrived")
                   (Sample.world "driver_assigned" (Some 10%nat))))
           (snd (updateRideStatus Sample.env (Sample.setStatus 1%nat "driver_arrived")
                   (Sample.world "driver_assigned" (Some 10%nat)))));
    [by destruct (updateRideStatus _ _ _) | reflexivity].
Defined.

(** X11: A status request answered 400, 403 or 404 has changed nothing: no ride,
    no driver, no user, no event. *)
Theorem refused_status_changes_nothing (env : Env) (req : StatusRequest) (w : World)
    (r : Response) (w' : World) :
  updateRideStatus env req w = (r, w') →
  code r = 400%nat ∨ code r = 403%nat ∨ code r = 404%nat →
  w' = w.
Proof.
  intros Hrun Hcode.
  destruct (updateRideStatus_inversion env req w r w' Hrun)
    as [(? & ? & _) | (ride & Hride & [(? & ? & _) | (_ & [(? & ? & _) | (allowed & Hallowed & H)])])];
    try done.
  destruct H as [(? & ? & _) | (_ & Hc & _)]; [done |].
  destruct Hcode as [? | [? | ?]], Hc; congruence.
Qed.

Lemma refused_status_changes_nothing_witness :
  let req := Sample.setStatus 7%nat "cancelled" in
  let w := Sample.world "searching" None in
  let rw := updateRideStatus Sample.env req w in
  (code (fst rw) = 400%nat ∨ code (fst rw) = 403%nat ∨ code (fst rw) = 404%nat) ∧
  snd rw = w.
Proof.
  cbv zeta. split; [right; left; reflexivity |].
  apply (refused_status_changes_nothing Sample.env (Sample.setStatus 7%nat "cancelled")
           (Sample.world "searching" None)
           (fst (updateRideStatus Sample.env (Sample.setStatus 7%nat "cancelled")
                   (Sample.world "searching" None))));
    [by destruct (updateRideStatus _ _ _) | right; left; reflexivity].
Defined.



(** ** Further properties of the request route *)

(** X14: A request for a trip shorter than 0.5 km is answered 400 "Minimum
    distance is 0.5 km" before a ride is created: nothing changes. *)
Theorem short_trip_rejected (env : Env) (req : RideRequest) (w : World) :
  calculateDistance env (rq_pickup req) (rq_destination req) < 1 # 2 →
  requestRide env req w = ({| code := 400; text := "Minimum distance is 0.5 km" |}, w).
Proof.
  intros Hshort. unfold requestRide, requestRideBody. route_unfold.
  destruct (Qle_bool (1 # 2) _) eqn:E; [| reflexivity].
  apply Qle_bool_iff in E. by apply Qle_not_lt in E.
Qed.

Lemma short_trip_rejected_witness :
  let req := {| rq_user := 1%nat; rq_pickup := Sample.pickupPoint;
                rq_destination := (771 # 10, 28601 # 1000);
                rq_vehicleType := Car; rq_promoCode := None |} in
  calculateDistance Sample.env (rq_pickup req) (rq_destination req) < 1 # 2 ∧
  requestRide Sample.env req Sample.worldFar =
    ({| code := 400; text := "Minimum distance is 0.5 km" |}, Sample.worldFar).
Proof.
  cbv zeta. split; [reflexivity |].
  apply (short_trip_rejected Sample.env
           {| rq_user := 1%nat; rq_pickup := Sample.pickupPoint;
              rq_destination := (771 # 10, 28601 # 1000);
              rq_vehicleType := Car; rq_promoCode := None |} Sample.worldFar).
  reflexivity.
Defined.




(** X16: The request route never gets past its first save.  The document
    built by [new Ride(..)] has no [rideId], which the schema requires and
    only generates in a [pre('save')] hook, after validation: every request
    of at least 0.5 km is answered 500 "Failed to request ride", and no ride
    is stored, no driver searched or notified. *)
Theorem request_fails_on_first_save (env : Env) (req : RideRequest) (w : World) :
  1 # 2 <= calculateDistance env (rq_pickup req) (rq_destination req) →
  requestRide env req w = ({| code := 500; text := "Failed to request ride" |}, w).
Proof.
  intros Hmin. unfold requestRide, requestRideBody. route_unfold.
  apply Qle_bool_iff in Hmin. by rewrite Hmin.
Qed.

Lemma request_fails_on_first_save_witness :
  1 # 2 <= calculateDistance Sample.env (rq_pickup Sample.request)
             (rq_destination Sample.request) ∧
  requestRide Sample.env Sample.request (Sample.world "completed" None) =
    ({| code := 500; text := "Failed to request ride" |}, Sample.world "completed" None).
Proof.
  split; [by vm_compute |].
  apply (request_fails_on_first_save Sample.env Sample.request
           (Sample.world "completed" None)).
  by vm_compute.
Defined.

(** ** Further properties of the accept route *)

Lemma acceptRide_inversion (env : Env) (req : AcceptRequest) (w : World)
    (r : Response) (w' : World) :
  acceptRide env req w = (r, w') →
  ((code r = 400%nat ∨ code r = 404%nat ∨ code r = 500%nat) ∧ w' = w) ∨
  ∃ ride driverId,
    rides w !! ac_rideId req = Some ride ∧
    Ride.status ride = "searching" ∧
    (code r = 200%nat ∨ code r = 500%nat) ∧
    rides w' = alter (assign driverId (now env)) (ac_rideId req) (rides w).
Proof.
  unfold acceptRide, acceptRideBody, findRide, findDriver, saveRide, saveDriver, announce.
  unfold Rides.findByIdPopulated, Rides.save, Drivers.findOne, Drivers.save.
  route_unfold.
  destruct (rides w !! ac_rideId req) as [ride |] eqn:Hride; cbn;
    [| intros [= <- <-]; left; auto].
  destruct (String.eqb_spec (Ride.status ride) "searching") as [Hs | Hs]; cbn;
    [| intros [= <- <-]; left; auto].
  destruct (List.find _ _) as [[driverId driver] |]; cbn;
    [| intros [= <- <-]; left; auto].
  destruct (Driver.isAvailableForRides driver); cbn;
    [| intros [= <- <-]; left; auto].
  destruct (ac_currentLocation req) as [loc |]; cbn;
    [| intros [= <- <-]; left; auto].
  destruct (5000 <? _)%Z; cbn; [intros [= <- <-]; left; auto |].
  destruct (io env), (users w !! Ride.passenger ride); cbn;
    intros [= <- <-]; right; exists ride, driverId; auto.
Qed.

(** X17: An accepted ride is closed to further acceptance: after an acceptance
    request answered 200, every acceptance request on the same ride, run
    after it, is answered 400 "Ride is not available for acceptance" and
    changes nothing. *)
Theorem accepted_ride_is_closed (env : Env) (req : AcceptRequest) (w : World)
    (r : Response) (w' : World) :
  acceptRide env req w = (r, w') →
  code r = 200%nat →
  ∀ env' req', ac_rideId req' = ac_rideId req →
    acceptRide env' req' w' =
      ({| code := 400; text := "Ride is not available for acceptance" |}, w').
Proof.
  intros Hrun Hcode env' req' Hid.
  destruct (acceptRide_inversion env req w r w' Hrun)
    as [[Hc _] | (ride & driverId & Hride & _ & _ & Hrides)].
  - destruct Hc as [? | [? | ?]]; congruence.
  - apply (acceptRide_not_searching env' req' w' (assign driverId (now env) ride)).
    + by rewrite Hid, Hrides, lookup_alter_eq, Hride.
    + discriminate.
Qed.

Lemma accepted_ride_is_closed_witness :
  let w := Sample.world "searching" None in
  let rw := acceptRide Sample.env (Sample.accept 2%nat Sample.nearPoint) w in
  let later := Sample.accept 3%nat Sample.midPoint in
  code (fst rw) = 200%nat ∧
  acceptRide Sample.env later (snd rw) =
    ({| code := 400; text := "Ride is not available for acceptance" |}, snd rw).
Proof.
  cbv zeta. split; [reflexivity |].
  apply (accepted_ride_is_closed Sample.env (Sample.accept 2%nat Sample.nearPoint)
           (Sample.world "searching" None)
           (fst (acceptRide Sample.env (Sample.accept 2%nat Sample.nearPoint)
                   (Sample.world "searching" None))));
    [by destruct (acceptRide _ _ _) | reflexivity | reflexivity].
Defined.

(** X18: An acceptance request answered 400 or 404 (ride missing or not in
    [searching], driver missing or not available, too far from the pickup
    point) has changed nothing. *)
Theorem refused_accept_changes_nothing (env : Env) (req : AcceptRequest) (w : World)
    (r : Response) (w' : World) :
  acceptRide env req w = (r, w') →
  code r = 400%nat ∨ code r = 404%nat →
  w' = w.
Proof.
  intros Hrun Hcode.
  destruct (acceptRide_inversion env req w r w' Hrun)
    as [[_ ?] | (ride & driverId & _ & _ & Hc & _)]; [done |].
  destruct Hcode, Hc; congruence.
Qed.

Lemma refused_accept_changes_nothing_witness :
  let w := Sample.world "searching" None in
  let rw := acceptRide Sample.env (Sample.accept 2%nat Sample.farPoint) w in
  (code (fst rw) = 400%nat ∨ code (fst rw) = 404%nat) ∧ snd rw = w.
Proof.
  cbv zeta. split; [left; reflexivity |].
  apply (refused_accept_changes_nothing Sample.env (Sample.accept 2%nat Sample.farPoint)
           (Sample.world "searching" None)
           (fst (acceptRide Sample.env (Sample.accept 2%nat Sample.farPoint)
                   (Sample.world "searching" None))));
    [by destruct (acceptRide _ _ _) | left; reflexivity].
Defined.

(** X19: A successful acceptance: for a ride in [searching], a driver document of
    the requesting user that passes [isAvailableForRides], and a current
    location at most 5000 m from the pickup point, the answer is 200; the
    ride gets this driver, the status [driver_assigned] and the time of
    assignment; the driver becomes unavailable at the reported location; and,
    with the socket server registered, the passenger is told and a
    [rideCancelled] is broadcast. *)
Theorem accept_assigns_and_reserves (env : Env) (req : AcceptRequest) (w : World)
    (ride : Ride.t) (driverId : ObjectId) (driver : Driver.t) (loc : Coords) :
  rides w !! ac_rideId req = Some ride →
  Ride.status ride = "searching" →
  Drivers.findOne (ac_user req) w = (Next (Some (driverId, driver)), w) →
  Driver.isAvailableForRides driver = true →
  ac_currentLocation req = Some loc →
  (getDistance env loc (Ride.pickup ride) <= 5000)%Z →
  (io env = true → is_Some (users w !! Ride.passenger ride)) →
  acceptRide env req w =
    ({| code := 200; text := "Ride accepted successfully" |},
     {| rides := alter (assign driverId (now env)) (ac_rideId req) (rides w);
        drivers := alter (reserve loc) driverId (drivers w);
        users := users w;
        outbox := (outbox w ++
          if io env then
            [ {| room := Some (Ride.passenger ride); event := "rideAccepted";
                 about := ac_rideId req |};
              {| room := None; event := "rideCancelled"; about := ac_rideId req |} ]
          else [])%list |}).
Proof.
  intros Hride Hstatus Hdriver Havail Hloc Hdist Hpass.
  unfold Drivers.findOne in Hdriver. injection Hdriver as Hdriver.
  unfold acceptRide, acceptRideBody, findRide, findDriver, saveRide, saveDriver, announce.
  unfold Rides.findByIdPopulated, Rides.save, Drivers.findOne, Drivers.save.
  route_unfold.
  rewrite Hride. cbn. rewrite Hstatus. cbn. rewrite Hdriver, Havail, Hloc. cbn.
  apply Z.ltb_ge in Hdist. rewrite Hdist.
  destruct (io env).
  - destruct (Hpass eq_refl) as [p ->]. cbn. by rewrite <- app_assoc.
  - cbn. by rewrite app_nil_r.
Qed.

Lemma accept_assigns_and_reserves_witness :
  let req := Sample.accept 2%nat Sample.nearPoint in
  let w := Sample.world "searching" None in
  let ride := Sample.ride "searching" None in
  let driver := Sample.carDriver 2%nat Sample.nearPoint in
  rides w !! ac_rideId req = Some ride ∧
  Drivers.findOne (ac_user req) w = (Next (Some (10%nat, driver)), w) ∧
  (getDistance Sample.env Sample.nearPoint (Ride.pickup ride) <= 5000)%Z ∧
  acceptRide Sample.env req w =
    ({| code := 200; text := "Ride accepted successfully" |},
     {| rides := alter (assign 10%nat (now Sample.env)) (ac_rideId req) (rides w);
        drivers := alter (reserve Sample.nearPoint) 10%nat (drivers w);
        users := users w;
        outbox := (outbox w ++
          if io Sample.env then
            [ {| room := Some (Ride.passenger ride); event := "rideAccepted";
                 about := ac_rideId req |};
              {| room := None; event := "rideCancelled"; about := ac_rideId req |} ]
          else [])%list |}).
Proof.
  cbv zeta. split; [reflexivity |]. split; [reflexivity |]. split; [discriminate |].
  apply (accept_assigns_and_reserves Sample.env (Sample.accept 2%nat Sample.nearPoint)
           (Sample.world "searching" None) (Sample.ride "searching" None) 10%nat
           (Sample.carDriver 2%nat Sample.nearPoint) Sample.nearPoint);
    try reflexivity; [discriminate | by eexists].
Defined.

(** ** The cancel route *)

Lemma status_cancelled (req : CancelRequest) (now : Date) (r : Ride.t) :
  Ride.status (cancelled req now r) = "cancelled".
Proof. reflexivity. Qed.

Lemma cancelRide_terminal (env : Env) (req : CancelRequest) (w : World) (ride : Ride.t) :
  rides w !! cn_rideId req = Some ride →
  Ride.status ride = "completed" ∨ Ride.status ride = "cancelled" →
  ∃ r, cancelRide env req w = (r, w) ∧ (code r = 403 ∨ code r = 400)%nat.
Proof.
  intros Hride Hstatus.
  unfold cancelRide, cancelRideBody, Rides.findById. route_unfold.
  rewrite Hride.
  destruct (negb (isPassengerOf ride (cn_user req)) && negb (isDriverOf ride (cn_user req))).
  - eexists. split; [reflexivity | by left].
  - destruct Hstatus as [-> | ->]; cbn; eexists; (split; [reflexivity | by right]).
Qed.

(** X22: A cancel request from the passenger or the driver of a ride that is
    already [completed] or [cancelled] is answered 400 and changes nothing. *)
Theorem cancel_of_finished_ride_refused (env : Env) (req : CancelRequest) (w : World)
    (ride : Ride.t) :
  rides w !! cn_rideId req = Some ride →
  isPassengerOf ride (cn_user req) || isDriverOf ride (cn_user req) = true →
  Ride.status ride = "completed" ∨ Ride.status ride = "cancelled" →
  cancelRide env req w =
    ({| code := 400; text := "Cannot cancel completed or already cancelled ride" |}, w).
Proof.
  intros Hride Hauth Hstatus.
  unfold cancelRide, cancelRideBody, Rides.findById. route_unfold.
  rewrite Hride, <- negb_orb, Hauth. by destruct Hstatus as [-> | ->].
Qed.

Lemma cancel_of_finished_ride_refused_witness :
  let req := {| cn_user := 1%nat; cn_userType := "passenger"; cn_rideId := 100%nat;
                cn_reason := None |} in
  let w := Sample.world "completed" (Some 10%nat) in
  let ride := Sample.ride "completed" (Some 10%nat) in
  rides w !! cn_rideId req = Some ride ∧
  isPassengerOf ride (cn_user req) || isDriverOf ride (cn_user req) = true ∧
  (Ride.status ride = "completed" ∨ Ride.status ride = "cancelled") ∧
  cancelRide Sample.env req w =
    ({| code := 400; text := "Cannot cancel completed or already cancelled ride" |}, w).
Proof.
  cbv zeta. split; [reflexivity |]. split; [reflexivity |]. split; [by left |].
  apply (cancel_of_finished_ride_refused Sample.env
           {| cn_user := 1%nat; cn_userType := "passenger"; cn_rideId := 100%nat;
              cn_reason := None |}
           (Sample.world "completed" (Some 10%nat))
           (Sample.ride "completed" (Some 10%nat)));
    [reflexivity | reflexivity | by left].
Defined.

(** X23: A cancel request from the passenger or the driver of a ride in any other
    status ([in_progress] included) is answered 200: the ride is stored
    [cancelled] with the time, the given reason (or "No reason provided")
    and the canceller's user type; the ride's driver, when there is one, is
    made available again and has [cancelledRides] raised by one; users are
    untouched; with the socket server registered the other party, when there
    is one, is sent [rideCancelled]. *)
Theorem cancel_releases_driver (env : Env) (req : CancelRequest) (w : World)
    (ride : Ride.t) :
  rides w !! cn_rideId req = Some ride →
  isPassengerOf ride (cn_user req) || isDriverOf ride (cn_user req) = true →
  Ride.status ride ≠ "completed" → Ride.status ride ≠ "cancelled" →
  let target :=
    if isPassengerOf ride (cn_user req) then Ride.driver ride
    else Some (Ride.passenger ride) in
  cancelRide env req w =
    ({| code := 200; text := "Ride cancelled successfully" |},
     {| rides := alter (cancelled req (now env)) (cn_rideId req) (rides w);
        drivers :=
          match Ride.driver ride with
          | Some d => alter Driver.cancelRide d (drivers w)
          | None => drivers w
          end;
        users := users w;
        outbox := (outbox w ++
          match target with
          | Some t =>
              if io env then
                [ {| room := Some t; event := "rideCancelled"; about := cn_rideId req |} ]
              else []
          | None => []
          end)%list |}) ∧
  Ride.status (cancelled req (now env) ride) = "cancelled" ∧
  Ride.cancellationReason (cancelled req (now env) ride) =
    Some (reasonOrDefault (cn_reason req)) ∧
  ∀ d driver, Ride.driver ride = Some d → drivers w !! d = Some driver →
    Driver.isAvailable (Driver.cancelRide driver) = true ∧
    Driver.cancelledRides (Driver.stats (Driver.cancelRide driver)) =
      (Driver.cancelledRides (Driver.stats driver) + 1)%Z.
Proof.
  intros Hride Hauth Hc1 Hc2. cbv zeta.
  split; [| by repeat split].
  unfold cancelRide, cancelRideBody, Rides.findById, Rides.save, Drivers.findById,
    Drivers.save.
  route_unfold.
  rewrite Hride, <- negb_orb, Hauth. cbn [negb].
  assert (Hinc : includes ["completed"; "cancelled"] (Ride.status ride) = false).
  { apply not_true_is_false. rewrite includes_spec.
    intros H. apply list_elem_of_In in H. cbn in H. intuition congruence. }
  rewrite Hinc.
  destruct (Ride.driver ride) as [d |] eqn:Hd; cbn.
  - destruct (drivers w !! d) eqn:Hdoc; cbn.
    + destruct (io env), (isPassengerOf ride (cn_user req)); cbn;
        by rewrite ?app_nil_r.
    + rewrite (alter_id _ (drivers w) d) by (intros x Hx; congruence).
      destruct (io env), (isPassengerOf ride (cn_user req)); cbn;
        by rewrite ?app_nil_r.
  - destruct (io env), (isPassengerOf ride (cn_user req)); cbn;
      by rewrite ?app_nil_r.
Qed.

Lemma cancel_releases_driver_witness :
  let req := {| cn_user := 1%nat; cn_userType := "passenger"; cn_rideId := 100%nat;
                cn_reason := Some "" |} in
  let w := snd (acceptRide Sample.env (Sample.accept 2%nat Sample.nearPoint)
                  (Sample.world "searching" None)) in
  let rw := cancelRide Sample.env req w in
  code (fst rw) = 200%nat ∧
  Ride.status <$> rides (snd rw) !! 100%nat = Some "cancelled" ∧
  Ride.cancellationReason <$> rides (snd rw) !! 100%nat = Some (Some "No reason provided") ∧
  Driver.isAvailable <$> drivers w !! 10%nat = Some false ∧
  Driver.isAvailable <$> drivers (snd rw) !! 10%nat = Some true.
Proof.
  cbv zeta.
  destruct (cancel_releases_driver Sample.env
              {| cn_user := 1%nat; cn_userType := "passenger"; cn_rideId := 100%nat;
                 cn_reason := Some "" |}
              (snd (acceptRide Sample.env (Sample.accept 2%nat Sample.nearPoint)
                      (Sample.world "searching" None)))
              (assign 10%nat (now Sample.env) (Sample.ride "searching" None)))
    as (-> & _); [reflexivity | reflexivity | discriminate | discriminate |].
  repeat split.
Defined.

(** X24: A cancelled ride is closed: after a cancel request answered 200, every
    later cancel request, status request or acceptance request on that ride
    is refused and changes nothing. *)
Theorem cancelled_ride_is_closed (env : Env) (req : CancelRequest) (w : World)
    (r : Response) (w' : World) :
  cancelRide env req w = (r, w') →
  code r = 200%nat →
  (∀ env' req', cn_rideId req' = cn_rideId req →
     ∃ r', cancelRide env' req' w' = (r', w') ∧ code r' ≠ 200%nat) ∧
  (∀ env' req', st_rideId req' = cn_rideId req →
     ∃ r', updateRideStatus env' req' w' = (r', w') ∧ code r' ≠ 200%nat) ∧
  (∀ env' req', ac_rideId req' = cn_rideId req →
     acceptRide env' req' w' =
       ({| code := 400; text := "Ride is not available for acceptance" |}, w')).
Proof.
  intros Hrun Hcode.
  assert (Hstored : ∃ ride', rides w' !! cn_rideId req = Some ride' ∧
                             Ride.status ride' = "cancelled").
  { revert Hrun.
    unfold cancelRide, cancelRideBody, Rides.findById, Rides.save, Drivers.findById,
      Drivers.save.
    route_unfold.
    destruct (rides w !! cn_rideId req) as [ride |] eqn:Hride;
      [| intros [= <- <-]; done].
    destruct (negb _ && negb _); [intros [= <- <-]; done |].
    destruct (includes _ _); [intros [= <- <-]; done |].
    destruct (Ride.driver ride) as [d |]; cbn;
      repeat (match goal with
              | |- context [drivers ?x !! ?i] => destruct (drivers x !! i); cbn
              end);
      destruct (io env), (isPassengerOf ride (cn_user req)); cbn;
      intros [= <- <-]; cbn;
      exists (cancelled req (now env) ride);
      by rewrite lookup_alter_eq, Hride. }
  destruct Hstored as (ride' & Hride' & Hst).
  split; [| split].
  - intros env' req' Hid. rewrite <- Hid in Hride'.
    destruct (cancelRide_terminal env' req' w' ride' Hride' (or_intror Hst))
      as (r' & Hr' & Hc).
    exists r'. split; [done |]. destruct Hc as [-> | ->]; done.
  - intros env' req' Hid. rewrite <- Hid in Hride'.
    destruct (updateRideStatus_terminal env' req' w' ride' Hride' (or_intror Hst))
      as (r' & Hr' & Hc).
    exists r'. split; [done |]. destruct Hc as [-> | ->]; done.
  - intros env' req' Hid. rewrite <- Hid in Hride'.
    apply (acceptRide_not_searching env' req' w' ride' Hride'). by rewrite Hst.
Qed.

Lemma cancelled_ride_is_closed_witness :
  let req := {| cn_user := 1%nat; cn_userType := "passenger"; cn_rideId := 100%nat;
                cn_reason := None |} in
  let rw := cancelRide Sample.env req (Sample.world "driver_assigned" (Some 10%nat)) in
  code (fst rw) = 200%nat ∧
  (∀ env' req', cn_rideId req' = cn_rideId req →
     ∃ r', cancelRide env' req' (snd rw) = (r', snd rw) ∧ code r' ≠ 200%nat) ∧
  (∀ env' req', st_rideId req' = cn_rideId req →
     ∃ r', updateRideStatus env' req' (snd rw) = (r', snd rw) ∧ code r' ≠ 200%nat) ∧
  (∀ env' req', ac_rideId req' = cn_rideId req →
     acceptRide env' req' (snd rw) =
       ({| code := 400; text := "Ride is not available for acceptance" |}, snd rw)).
Proof.
  cbv zeta. split; [reflexivity |].
  apply (cancelled_ride_is_closed Sample.env
           {| cn_user := 1%nat; cn_userType := "passenger"; cn_rideId := 100%nat;
              cn_reason := None |}
           (Sample.world "driver_assigned" (Some 10%nat))
           (fst (cancelRide Sample.env
                   {| cn_user := 1%nat; cn_userType := "passenger"; cn_rideId := 100%nat;
                      cn_reason := None |}
                   (Sample.world "driver_assigned" (Some 10%nat)))));
    [by destruct (cancelRide _ _ _) | reflexivity].
Defined.

(** ** The availability route *)

(** X25: For the first driver document of the requesting user: when it is not
    approved the request is answered 400 and changes nothing; when it is,
    the answer is 200, [isAvailable] and [isOnline] both take the requested
    value, the location is replaced only when the body carries one, and the
    driver passes [isAvailableForRides] exactly when the requested value is
    true and the background check is approved. *)
Theorem availability_sets_both_flags (req : AvailabilityRequest) (w : World)
    (driverId : ObjectId) (driver : Driver.t) :
  Drivers.findOne (av_user req) w = (Next (Some (driverId, driver)), w) →
  if String.eqb (Driver.approvalStatus driver) "approved" then
    toggleAvailability req w =
      ({| code := 200;
          text := if av_isAvailable req then "Driver is now available"
                  else "Driver is now unavailable" |},
       with_drivers (alter (setAvailability req) driverId) w) ∧
    Driver.isAvailable (setAvailability req driver) = av_isAvailable req ∧
    Driver.isOnline (setAvailability req driver) = av_isAvailable req ∧
    Driver.currentLocation (setAvailability req driver) =
      match av_currentLocation req with
      | Some c => Some c
      | None => Driver.currentLocation driver
      end ∧
    Driver.isAvailableForRides (setAvailability req driver) =
      av_isAvailable req && String.eqb (Driver.backgroundCheckStatus driver) "approved"
  else
    toggleAvailability req w = ({| code := 400; text := "Driver not approved yet" |}, w).
Proof.
  intros Hdriver. unfold Drivers.findOne in Hdriver. injection Hdriver as Hdriver.
  unfold toggleAvailability, toggleAvailabilityBody, Drivers.findOne, Drivers.save.
  route_unfold. rewrite Hdriver.
  destruct (String.eqb (Driver.approvalStatus driver) "approved") eqn:Happ; cbn [negb];
    [| done].
  split; [done |].
  unfold setAvailability, Driver.isAvailableForRides.
  destruct (av_currentLocation req), (av_isAvailable req); cbn; by rewrite ?Happ.
Qed.

Lemma availability_sets_both_flags_witness :
  let req := {| av_user := 2%nat; av_isAvailable := false; av_currentLocation := None |} in
  let w := Sample.world "searching" None in
  let driver := Sample.carDriver 2%nat Sample.nearPoint in
  Drivers.findOne (av_user req) w = (Next (Some (10%nat, driver)), w) ∧
  toggleAvailability req w =
    ({| code := 200; text := "Driver is now unavailable" |},
     with_drivers (alter (setAvailability req) 10%nat) w) ∧
  Driver.isAvailableForRides (setAvailability req driver) = false.
Proof.
  cbv zeta. split; [reflexivity |].
  pose proof (availability_sets_both_flags
                {| av_user := 2%nat; av_isAvailable := false; av_currentLocation := None |}
                (Sample.world "searching" None) 10%nat
                (Sample.carDriver 2%nat Sample.nearPoint) eq_refl) as H.
  cbn [String.eqb Driver.approvalStatus Sample.carDriver] in H.
  change (String.eqb "approved" "approved") with true in H.
  destruct H as (H & _ & _ & _ & Hav). split; [exact H | exact Hav].
Defined.

(** ** Requests that do not overlap *)

Lemma runSchedule_app (env : Env) (s1 s2 : list nat) (attempts : list Attempt)
    (w : World) :
  runSchedule env (s1 ++ s2) attempts w =
    let '(attempts', w') := runSchedule env s1 attempts w in
    runSchedule env s2 attempts' w'.
Proof.
  revert attempts w. induction s1 as [| i s1 IH]; intros attempts w; [done |].
  cbn [runSchedule app]. destruct (attempts !! i) as [a |]; [| apply IH].
  destruct (stepAccept env (attempt_req a) (attempt_pc a) w). apply IH.
Qed.

Lemma runSchedule_first_alone (env : Env) (req : AcceptRequest) (rest : list Attempt)
    (w : World) :
  runSchedule env [0; 0; 0; 0; 0]%nat (start req :: rest) w =
    ({| attempt_req := req; attempt_pc := Finished (fst (acceptRide env req w)) |} :: rest,
     snd (acceptRide env req w)).
Proof.
  unfold acceptRide, acceptRideBody.
  cbn [runSchedule start lookup list_lookup attempt_req attempt_pc insert list_insert].
  unfold stepAccept, acceptSegment.
  unfold findRide, findDriver, saveRide, saveDriver, announce.
  unfold Rides.findByIdPopulated, Rides.save, Drivers.findOne, Drivers.save.
  route_unfold. cbn.
  destruct (rides w !! ac_rideId req) as [ride |]; cbn; [| done].
  destruct (String.eqb (Ride.status ride) "searching"); cbn; [| done].
  destruct (List.find _ _) as [[driverId driver] |]; cbn; [| done].
  destruct (Driver.isAvailableForRides driver); cbn; [| done].
  destruct (ac_currentLocation req) as [loc |]; cbn; [| done].
  destruct (5000 <? _)%Z; cbn; [done |].
  by destruct (io env), (users w !! Ride.passenger ride).
Qed.

Lemma runSchedule_second_alone (env : Env) (first : Attempt) (req : AcceptRequest)
    (rest : list Attempt) (w : World) :
  runSchedule env [1; 1; 1; 1; 1]%nat (first :: start req :: rest) w =
    (first ::
       {| attempt_req := req; attempt_pc := Finished (fst (acceptRide env req w)) |} :: rest,
     snd (acceptRide env req w)).
Proof.
  unfold acceptRide, acceptRideBody.
  cbn [runSchedule start lookup list_lookup attempt_req attempt_pc insert list_insert].
  unfold stepAccept, acceptSegment.
  unfold findRide, findDriver, saveRide, saveDriver, announce.
  unfold Rides.findByIdPopulated, Rides.save, Drivers.findOne, Drivers.save.
  route_unfold. cbn.
  destruct (rides w !! ac_rideId req) as [ride |]; cbn; [| done].
  destruct (String.eqb (Ride.status ride) "searching"); cbn; [| done].
  destruct (List.find _ _) as [[driverId driver] |]; cbn; [| done].
  destruct (Driver.isAvailableForRides driver); cbn; [| done].
  destruct (ac_currentLocation req) as [loc |]; cbn; [| done].
  destruct (5000 <? _)%Z; cbn; [done |].
  by destruct (io env), (users w !! Ride.passenger ride).
Qed.

(** X21: Two acceptance requests on the same ride that do not overlap have one
    winner: when the first runs to its end and is answered 200 before the
    second starts, the second is answered 400 "Ride is not available for
    acceptance" and the world is the one the first request left. *)
Theorem back_to_back_requests_have_one_winner (env : Env) (a b : AcceptRequest)
    (w : World) :
  ac_rideId b = ac_rideId a →
  code (fst (acceptRide env a w)) = 200%nat →
  let '(attempts, w') :=
    runSchedule env [0; 0; 0; 0; 0; 1; 1; 1; 1; 1]%nat [start a; start b] w in
  responseOf attempts 0 = Some (fst (acceptRide env a w)) ∧
  responseOf attempts 1 =
    Some {| code := 400; text := "Ride is not available for acceptance" |} ∧
  winners attempts = [a] ∧
  w' = snd (acceptRide env a w).
Proof.
  intros Hid Hcode.
  change [0; 0; 0; 0; 0; 1; 1; 1; 1; 1]%nat
    with ([0; 0; 0; 0; 0]%nat ++ [1; 1; 1; 1; 1]%nat)%list.
  rewrite runSchedule_app, runSchedule_first_alone, runSchedule_second_alone.
  destruct (acceptRide env a w) as [r w1] eqn:Hrun. cbn [fst snd] in *.
  destruct (acceptRide_inversion env a w r w1 Hrun)
    as [[Hc _] | (ride & driverId & Hride & _ & _ & Hrides)].
  { destruct Hc as [? | [? | ?]]; congruence. }
  rewrite (acceptRide_not_searching env b w1 (assign driverId (now env) ride)).
  - cbn. unfold responseOf, winners. cbn. rewrite Hcode. by cbn.
  - by rewrite Hid, Hrides, lookup_alter_eq, Hride.
  - discriminate.
Qed.

Lemma back_to_back_requests_have_one_winner_witness :
  let a := Sample.accept 2%nat Sample.nearPoint in
  let b := Sample.accept 3%nat Sample.midPoint in
  let w := Sample.world "searching" None in
  ac_rideId b = ac_rideId a ∧
  code (fst (acceptRide Sample.env a w)) = 200%nat ∧
  let '(attempts, w') :=
    runSchedule Sample.env [0; 0; 0; 0; 0; 1; 1; 1; 1; 1]%nat [start a; start b] w in
  responseOf attempts 0 = Some (fst (acceptRide Sample.env a w)) ∧
  responseOf attempts 1 =
    Some {| code := 400; text := "Ride is not available for acceptance" |} ∧
  winners attempts = [a] ∧
  w' = snd (acceptRide Sample.env a w).
Proof.
  cbv zeta. split; [reflexivity |]. split; [reflexivity |].
  apply (back_to_back_requests_have_one_winner Sample.env
           (Sample.accept 2%nat Sample.nearPoint) (Sample.accept 3%nat Sample.midPoint)
           (Sample.world "searching" None)); reflexivity.
Defined.
